(** * sippitude: the cleaning pipeline, the insight generator and the page

    A shallow embedding of [src/sippitudeapp.py]: [clean_data] with its
    [st.cache_data] decorator, [generate_insights], the five chart tables
    and the page script, and the properties the specification states about
    them.

    Conventions of the embedding.
    - A pandas DataFrame is a row index and a list of labelled columns; labels
      may repeat, as pandas allows.
    - Cells read from CSV text are missing, text or numbers ([raw_cell]);
      after cleaning a cell may also be a timestamp or NaT ([cell]).
    - Text is a [string] of characters; [lower] changes the letters A-Z, as
      [str.lower] does on ASCII text. Properties that depend on the spelling
      of a normalized header are stated for ASCII headers ([ascii_text]).
    - Numbers are held by value, as rationals. A column of whole numbers in
      the int64 range is an int64 column, whose sums wrap around
      ([as_dtype]); all other arithmetic is exact, where the program
      computes in float64. Properties that give the value or the text of a
      sum, a mean or a percentage are stated where float64 is exact or
      prints the same ([small_whole_numbers], [shares_print_exactly]);
      negative zero, infinities and NaN have no counterpart.
    - The pandas entry points whose behaviour depends on the pandas version
      ([to_datetime] on a column, the numeric literal parser behind
      [to_numeric], the tie order of [sort_values]) are Section variables.
    - [clean_data] is the function body; the name the program calls is
      bound to the decorated function, [cached_clean_data], which threads
      the cache. The properties of cleaning are stated on the decorated
      call.
    - The page script is embedded from its upload widget on: what a run
      shows is a list of [element]s, charts carry their tables and titles,
      styling is left out. *)

From Stdlib Require Import List String Ascii Bool ZArith QArith Qround Qabs Lia.
From Stdlib Require Import Permutation Sorted DecimalString.
Import ListNotations.

Open Scope list_scope.
Open Scope string_scope.

(** ** Data model *)

Record Date := mkDate { year : Z; month : Z; day : Z }.

Record Timestamp := mkTimestamp { ts_date : Date; ts_nanos : Z }.

(** A cell as [pd.read_csv] delivers it. *)
Inductive raw_cell :=
| RNaN
| RStr (s : string)
| RNum (q : Q).

(** A cell of a frame under cleaning. *)
Inductive cell :=
| NaN
| Str (s : string)
| Num (q : Q)
| Stamp (t : Timestamp)
| NaT.

Definition inject (r : raw_cell) : cell :=
  match r with
  | RNaN => NaN
  | RStr s => Str s
  | RNum q => Num q
  end.

Record DataFrame (C : Type) := mkFrame {
  index : list nat;
  columns : list (string * list C)
}.

Arguments mkFrame {C} index columns.
Arguments index {C} d.
Arguments columns {C} d.

(** [pd.DataFrame()] *)
Definition empty_frame {C : Type} : DataFrame C := mkFrame [] [].

(** [df.empty]: some axis has length 0. *)
Definition empty {C : Type} (df : DataFrame C) : bool :=
  match index df, columns df with
  | [], _ => true
  | _, [] => true
  | _, _ => false
  end.

Definition labels {C : Type} (df : DataFrame C) : list string :=
  map fst (columns df).

(** Why a run yields no result. [MissingLabel], [EmptySeries] and, in
    [clean_data] and under [groupby], [AmbiguousLabel] stand for exceptions
    pandas raises; the other cases mark frames this embedding does not
    follow, where pandas goes on with frame-valued or mixed-type data. *)
Inductive failure :=
| MissingLabel (label : string)     (* KeyError *)
| AmbiguousLabel (label : string)   (* several columns carry the label, so
                                       subscripting yields a sub-frame:
                                       to_datetime, to_numeric and groupby
                                       raise on it *)
| NotText (label : string)          (* a category column with cells that are
                                       neither text nor missing *)
| NotDatetime (label : string)      (* a date column with cells that are
                                       neither timestamps nor NaT *)
| NotNumeric (label : string)       (* an engagements column with cells that
                                       are not numbers *)
| EmptySeries.                      (* ValueError: idxmax of an empty series *)

Inductive outcome (A : Type) :=
| Returned (a : A)
| Failed (e : failure).

Arguments Returned {A} a.
Arguments Failed {A} e.

Definition bind {A B : Type} (m : outcome A) (k : A -> outcome B) : outcome B :=
  match m with
  | Returned a => k a
  | Failed e => Failed e
  end.

Notation "x <- m ;; k" := (bind m (fun x => k))
  (at level 61, m at next level, right associativity).

(** [df[label]] as a Series. *)
Definition get_column {C : Type} (df : DataFrame C) (label : string)
  : outcome (list C) :=
  match filter (fun c => fst c =? label) (columns df) with
  | [] => Failed (MissingLabel label)
  | [c] => Returned (snd c)
  | _ => Failed (AmbiguousLabel label)
  end.

(** [df[label] = values], for a label the frame already has. *)
Definition set_column {C : Type} (df : DataFrame C) (label : string)
  (values : list C) : DataFrame C :=
  mkFrame (index df)
    (map (fun c => if fst c =? label then (fst c, values) else c) (columns df)).

Definition map_frame {C D : Type} (f : C -> D) (df : DataFrame C) : DataFrame D :=
  mkFrame (index df) (map (fun c => (fst c, map f (snd c))) (columns df)).

(** Boolean indexing: the entries of [l] at the positions where [keep] holds. *)
Fixpoint mask {A : Type} (keep : list bool) (l : list A) : list A :=
  match keep, l with
  | b :: keep', x :: l' => if b then x :: mask keep' l' else mask keep' l'
  | _, _ => []
  end.

Definition notna (c : cell) : bool :=
  match c with
  | NaN | NaT => false
  | _ => true
  end.

(** [df.dropna(subset=[label])] *)
Definition dropna (df : DataFrame cell) (label : string)
  : outcome (DataFrame cell) :=
  col <- get_column df label ;;
  let keep := map notna col in
  Returned (mkFrame (mask keep (index df))
              (map (fun c => (fst c, mask keep (snd c))) (columns df))).

(** ** Column Normalizer *)

Definition lower_ascii (c : ascii) : ascii :=
  let n := nat_of_ascii c in
  if (65 <=? n)%nat && (n <=? 90)%nat then ascii_of_nat (n + 32) else c.

Fixpoint map_string (f : ascii -> ascii) (s : string) : string :=
  match s with
  | EmptyString => EmptyString
  | String c s' => String (f c) (map_string f s')
  end.

(** [str.lower()], on ASCII text. *)
Definition lower (s : string) : string := map_string lower_ascii s.

(** [str.replace(' ', '_')] *)
Definition replace_space (s : string) : string :=
  map_string (fun c => if Ascii.eqb c " " then "_"%char else c) s.

Definition normalize_name (s : string) : string := replace_space (lower s).

(** [_df.columns = _df.columns.str.lower().str.replace(' ', '_')] *)
Definition normalize_columns {C : Type} (df : DataFrame C) : DataFrame C :=
  mkFrame (index df) (map (fun c => (normalize_name (fst c), snd c)) (columns df)).

(** ** Schema Validator and Type Coercer *)

Definition required_columns : list string :=
  ["date"; "platform"; "sentiment"; "location"; "engagements"; "media_type"].

Definition contains (l : list string) (s : string) : bool :=
  existsb (String.eqb s) l.

Definition missing_columns {C : Type} (df : DataFrame C) : list string :=
  filter (fun col => negb (contains (labels df) col)) required_columns.

Definition missing_message (missing : list string) : string :=
  "Missing required columns: " ++ concat ", " missing
  ++ ". Please ensure your CSV has 'Date', 'Platform', 'Sentiment', 'Location', 'Engagements', 'Media Type' columns.".

Definition no_data_message : string := "No data to clean or process.".

Definition date_cell (o : option Timestamp) : cell :=
  match o with
  | Some t => Stamp t
  | None => NaT
  end.

Definition fillna0 (o : option Q) : Q :=
  match o with
  | Some q => q
  | None => 0
  end.

Section Cleaning.

(** [pd.to_datetime(column, errors='coerce')]: one result per cell, [None]
    for NaT. Whether a cell parses may depend on the other cells of the
    column (pandas 2 infers one format for the column). *)
Variable to_datetime : list raw_cell -> list (option Timestamp).

(** The numeric literal parser of [pd.to_numeric]. *)
Variable parse_number : string -> option Q.

(** [pd.to_numeric(_, errors='coerce')] on one cell, [None] for NaN. *)
Definition to_numeric (r : raw_cell) : option Q :=
  match r with
  | RNaN => None
  | RStr s => parse_number s
  | RNum q => Some q
  end.

(** The body of [clean_data(_df)], which its decorator runs when it holds
    no result. The frame starts as raw cells; the two assigned
    columns are the only ones that change type, so the [engagements]
    column is read before the frame is lifted to [cell]s (it is not the
    [date] column, whose label is known to be unique at that point). *)
Definition clean_data (_df : DataFrame raw_cell)
  : outcome (DataFrame cell * string) :=
  if empty _df then Returned (empty_frame, no_data_message)
  else
    let _df := normalize_columns _df in
    match missing_columns _df with
    | (_ :: _) as missing => Returned (empty_frame, missing_message missing)
    | [] =>
        dates <- get_column _df "date" ;;
        let df1 := set_column (map_frame inject _df) "date"
                     (map date_cell (to_datetime dates)) in
        engagements <- get_column _df "engagements" ;;
        let df2 := set_column df1 "engagements"
                     (map (fun r => Num (fillna0 (to_numeric r))) engagements) in
        df3 <- dropna df2 "date" ;;
        Returned (df3, "")
    end.

End Cleaning.

(** ** The decorator of [clean_data]

    The module binds the name [clean_data] to what [st.cache_data] makes of
    the function above. [st.cache_data] keys its entries by the function
    and by the arguments whose names do not start with an underscore.
    [clean_data] has the one argument [_df], so there is one entry: a call
    on an empty cache runs the body and stores what it returns, and every
    later call is answered with that stored result, whatever table it is
    given. A call that raises stores nothing. *)

Definition cache : Type := option (DataFrame cell * string).

Section Decorator.

Variable to_datetime : list raw_cell -> list (option Timestamp).
Variable parse_number : string -> option Q.

(** [clean_data(_df)] as the program calls it, with the cache before the
    call and after it. *)
Definition cached_clean_data (c : cache) (_df : DataFrame raw_cell)
  : outcome (DataFrame cell * string) * cache :=
  match c with
  | Some result => (Returned result, c)
  | None =>
      match clean_data to_datetime parse_number _df with
      | Returned result => (Returned result, Some result)
      | Failed e => (Failed e, None)
      end
  end.

End Decorator.

(** ** Text rendering *)

(** [str(n)] for a non-negative integer. *)
Definition digits (n : N) : string := NilEmpty.string_of_uint (N.to_uint n).

Fixpoint zeros (n : nat) : string :=
  match n with
  | O => ""
  | S n' => String "0" (zeros n')
  end.

(** Left-pad with zeros to [width] characters. *)
Definition pad (width : nat) (s : string) : string :=
  zeros (width - String.length s) ++ s.

(** Insert a comma after every third digit of a reversed digit list. *)
Fixpoint group3 (rev_digits : list ascii) (k : nat) : list ascii :=
  match rev_digits with
  | [] => []
  | c :: t =>
      match k with
      | 3%nat => ","%char :: c :: group3 t 1
      | _ => c :: group3 t (S k)
      end
  end.

Definition thousands (s : string) : string :=
  string_of_list_ascii (rev (group3 (rev (list_ascii_of_string s)) 0)).

(** Round a non-negative rational to the nearest integer, ties to even. *)
Definition round_half_even (q : Q) : Z :=
  let f := Qfloor q in
  match Qcompare (q - inject_Z f) (1 # 2) with
  | Lt => f
  | Gt => (f + 1)%Z
  | Eq => if Z.even f then f else (f + 1)%Z
  end.

Definition negative (q : Q) : bool := negb (Qle_bool 0 q).

(** Python's fixed-point presentation types: [format(q, ',.0f')] is
    [fixed true 0 q], [format(q, '.1f')] is [fixed false 1 q], for a
    float64 whose value is [q]: the exact value is rounded, halves to the
    even neighbour. An int64 is converted to float64 first, which changes
    it only beyond 2^53. *)
Definition fixed (comma : bool) (decimals : nat) (q : Q) : string :=
  let scale := (10 ^ Z.of_nat decimals)%Z in
  let n := round_half_even (Qabs q * inject_Z scale) in
  let whole := digits (Z.to_N (n / scale)) in
  (if negative q then "-" else "")
  ++ (if comma then thousands whole else whole)
  ++ match decimals with
     | O => ""
     | _ => "." ++ pad decimals (digits (Z.to_N (n mod scale)))
     end.

(** [str(d)] for a [datetime.date]. *)
Definition iso (d : Date) : string :=
  pad 4 (digits (Z.to_N (year d))) ++ "-" ++ pad 2 (digits (Z.to_N (month d)))
  ++ "-" ++ pad 2 (digits (Z.to_N (day d))).

(** ** Series operations *)

Definition Qsum (l : list Q) : Q := fold_right Qplus 0 l.

Fixpoint present {A : Type} (l : list (option A)) : list A :=
  match l with
  | [] => []
  | Some a :: l' => a :: present l'
  | None :: l' => present l'
  end.

(** Rows whose key is missing are left out of every group. *)
Fixpoint keyed {K V : Type} (keys : list (option K)) (vals : list V)
  : list (K * V) :=
  match keys, vals with
  | Some k :: keys', v :: vals' => (k, v) :: keyed keys' vals'
  | None :: keys', _ :: vals' => keyed keys' vals'
  | _, _ => []
  end.

(** The dtype of a numeric column. [pd.to_numeric] yields int64 when every
    cell is a whole number, and float64 otherwise; a sum over an int64
    column is an int64, taken modulo 2^64. Numbers are held here by value,
    so a column counts as int64 when all its values are whole numbers in
    the int64 range; float64 arithmetic is idealised as exact. A float64
    column that holds whole numbers only (pandas makes one when a cell was
    missing or written with a decimal point) sums like an int64 one while
    the sums stay below 2^53 in magnitude; negative zero, infinities and
    NaN have no counterpart here. *)
Definition wrap_int64 (z : Z) : Z := ((z + 2 ^ 63) mod 2 ^ 64 - 2 ^ 63)%Z.

Definition int64_value (q : Q) : bool :=
  (Qden q =? 1)%positive && (- 2 ^ 63 <=? Qnum q)%Z && (Qnum q <? 2 ^ 63)%Z.

Definition int64_dtype (column : list Q) : bool := forallb int64_value column.

(** A sum of cells of [column], as the column's dtype holds it. *)
Definition as_dtype (column : list Q) (total : Q) : Q :=
  if int64_dtype column then inject_Z (wrap_int64 (Qnum total)) else total.

Section Grouping.

Context {K : Type}.
Variable eqb : K -> K -> bool.
Variable leb : K -> K -> bool.

(** The distinct values, in order of first appearance. *)
Fixpoint distinct (l : list K) : list K :=
  match l with
  | [] => []
  | x :: l' => x :: filter (fun y => negb (eqb y x)) (distinct l')
  end.

Fixpoint insert_sorted (x : K) (l : list K) : list K :=
  match l with
  | [] => [x]
  | y :: l' => if leb x y then x :: l else y :: insert_sorted x l'
  end.

Definition sort_keys (l : list K) : list K :=
  fold_right insert_sorted [] l.

Definition count_of (l : list K) (k : K) : nat :=
  List.length (filter (eqb k) l).

Definition group_total (rows : list (K * Q)) (k : K) : Q :=
  Qsum (map snd (filter (fun r => eqb (fst r) k) rows)).

(** [df.groupby(keys)[values].sum()]: one entry per distinct key, keys
    ascending, each with the sum of its rows in the dtype of [vals]. *)
Definition groupby_sum (keys : list (option K)) (vals : list Q)
  : list (K * Q) :=
  let rows := keyed keys vals in
  map (fun k => (k, as_dtype vals (group_total rows k)))
      (sort_keys (distinct (map fst rows))).

(** The first entry that carries the maximum: its label is [idxmax()],
    its value [max()]. *)
Fixpoint argmax (s : list (K * Q)) : option (K * Q) :=
  match s with
  | [] => None
  | (k, v) :: s' =>
      match argmax s' with
      | None => Some (k, v)
      | Some (k', v') => if Qle_bool v' v then Some (k, v) else Some (k', v')
      end
  end.

(** [series.idxmax()] *)
Definition idxmax (s : list (K * Q)) : outcome K :=
  match argmax s with
  | Some e => Returned (fst e)
  | None => Failed EmptySeries
  end.

(** [series.max()]; it is only asked of a series whose [idxmax()] has
    already been taken. *)
Definition series_max (s : list (K * Q)) : outcome Q :=
  match argmax s with
  | Some e => Returned (snd e)
  | None => Failed EmptySeries
  end.

(** [series.drop(label)] *)
Definition drop_label (label : K) (s : list (K * Q)) : list (K * Q) :=
  filter (fun e => negb (eqb (fst e) label)) s.

(** [index.min()] and [index.max()], for an index that starts with [d]. *)
Definition index_min (d : K) (rest : list K) : K :=
  fold_left (fun a x => if leb x a then x else a) rest d.

Definition index_max (d : K) (rest : list K) : K :=
  fold_left (fun a x => if leb a x then x else a) rest d.

End Grouping.

(** [series.mean()], with the quotient taken exactly. *)
Definition mean {K : Type} (s : list (K * Q)) : Q :=
  Qsum (map snd s) / inject_Z (Z.of_nat (List.length s)).

Definition Date_compare (a b : Date) : comparison :=
  match (year a ?= year b)%Z with
  | Eq => match (month a ?= month b)%Z with
          | Eq => (day a ?= day b)%Z
          | c => c
          end
  | c => c
  end.

Definition Date_eqb (a b : Date) : bool :=
  match Date_compare a b with Eq => true | _ => false end.

Definition Date_leb (a b : Date) : bool :=
  match Date_compare a b with Gt => false | _ => true end.


(** ** Reading typed columns *)

Fixpoint traverse {A B : Type} (f : A -> option B) (e : failure) (l : list A)
  : outcome (list B) :=
  match l with
  | [] => Returned []
  | a :: l' =>
      match f a with
      | Some b => rest <- traverse f e l' ;; Returned (b :: rest)
      | None => Failed e
      end
  end.

(** A category cell: text, or missing. *)
Definition text_key (c : cell) : option (option string) :=
  match c with
  | Str s => Some (Some s)
  | NaN => Some None
  | _ => None
  end.

(** [.dt.date] on a datetime cell; NaT stays missing. *)
Definition date_key (c : cell) : option (option Date) :=
  match c with
  | Stamp t => Some (Some (ts_date t))
  | NaT => Some None
  | _ => None
  end.

Definition number (c : cell) : option Q :=
  match c with
  | Num q => Some q
  | _ => None
  end.

Definition text_column (data : DataFrame cell) (label : string)
  : outcome (list (option string)) :=
  col <- get_column data label ;; traverse text_key (NotText label) col.

Definition date_column (data : DataFrame cell) (label : string)
  : outcome (list (option Date)) :=
  col <- get_column data label ;; traverse date_key (NotDatetime label) col.

Definition number_column (data : DataFrame cell) (label : string)
  : outcome (list Q) :=
  col <- get_column data label ;; traverse number (NotNumeric label) col.

(** ** Insight Generator *)

(** [insights.append(...)], one after the other. *)
Infix "+++" := (@List.app string) (at level 60, right associativity).

Definition count_entry (l : list string) (k : string) : string * Q :=
  (k, inject_Z (Z.of_nat (count_of String.eqb l k))).

Section Insights.

(** [series.sort_values(ascending=False)]; the order among equal values is
    the sorting routine's. *)
Variable sort_values_desc : list (string * Q) -> list (string * Q).

(** [series.value_counts()]: occurrences of each distinct non-missing value,
    most frequent first. *)
Definition value_counts (keys : list (option string)) : list (string * Q) :=
  let seen := present keys in
  sort_values_desc (map (count_entry seen) (distinct String.eqb seen)).

(** [series.value_counts(normalize=True) * 100], with the quotient and the
    product taken exactly; the program takes both in float64, which stays
    within 3e-14 of these values. *)
Definition value_percentages (keys : list (option string))
  : list (string * Q) :=
  let counts := value_counts keys in
  let total := Qsum (map snd counts) in
  map (fun e => (fst e, snd e / total * 100)) counts.

Definition ranked_location (rank : string) (e : string * Q) : string :=
  "The " ++ rank ++ " **" ++ fst e ++ "** with **" ++ fixed true 0 (snd e)
  ++ "** occurrences.".

Definition generate_insights (chart_type : string) (data : DataFrame cell)
  : outcome (list string) :=
  if empty data then Returned ["No data available for insights."]
  else if chart_type =? "sentiment" then
    sentiment <- text_column data "sentiment" ;;
    let sentiment_counts := value_percentages sentiment in
    match sentiment_counts with
    | [] => Returned []
    | _ :: _ =>
        top_sentiment <- idxmax sentiment_counts ;;
        top_share <- series_max sentiment_counts ;;
        second_statement <-
          (if (1 <? List.length sentiment_counts)%nat then
             let others := drop_label String.eqb top_sentiment sentiment_counts in
             second_sentiment <- idxmax others ;;
             second_share <- series_max others ;;
             Returned ["Second most common sentiment: **" ++ second_sentiment
                       ++ "** (" ++ fixed false 1 second_share ++ "%)."]
           else Returned []) ;;
        Returned
          (["Dominant sentiment: **" ++ top_sentiment ++ "** ("
            ++ fixed false 1 top_share ++ "%)."]
           +++ second_statement
           +++ ["Overall, " ++ digits (N.of_nat (List.length (present sentiment)))
                ++ " sentiment entries were analyzed."])
    end
  else if chart_type =? "engagement_trend" then
    dates <- date_column data "date" ;;
    engagements <- number_column data "engagements" ;;
    let daily_engagements := groupby_sum Date_eqb Date_leb dates engagements in
    match map fst daily_engagements with
    | [] => Returned ["No valid date-based engagement data found."]
    | d :: rest =>
        peak_date <- idxmax daily_engagements ;;
        peak_engagements <- series_max daily_engagements ;;
        let avg_engagements := mean daily_engagements in
        Returned
          ["Peak engagement occurred on **" ++ iso peak_date ++ "** with **"
           ++ fixed true 0 peak_engagements ++ "** total engagements.";
           "Average daily engagements across the period: **"
           ++ fixed true 0 avg_engagements ++ "**.";
           "Data covers the period from **" ++ iso (index_min Date_leb d rest)
           ++ "** to **" ++ iso (index_max Date_leb d rest) ++ "**."]
    end
  else if chart_type =? "platform_engagements" then
    platforms <- text_column data "platform" ;;
    engagements <- number_column data "engagements" ;;
    let platform_engagement_sums :=
      sort_values_desc (groupby_sum String.eqb String.leb platforms engagements) in
    match platform_engagement_sums with
    | [] => Returned []
    | top :: _ =>
        Returned
          (["The platform with the highest engagement is **" ++ fst top
            ++ "** with **" ++ fixed true 0 (snd top) ++ "** engagements."]
           +++ match nth_error platform_engagement_sums 1 with
              | Some second =>
                  ["The second highest engaging platform is **" ++ fst second
                   ++ "** with **" ++ fixed true 0 (snd second)
                   ++ "** engagements."]
              | None => []
              end
           +++ ["A total of **"
               ++ digits (N.of_nat (List.length platform_engagement_sums))
               ++ "** unique platforms were identified."])
    end
  else if chart_type =? "media_type_mix" then
    media_type <- text_column data "media_type" ;;
    let media_type_counts := value_percentages media_type in
    match media_type_counts with
    | [] => Returned []
    | _ :: _ =>
        top_media_type <- idxmax media_type_counts ;;
        top_share <- series_max media_type_counts ;;
        second_statement <-
          (if (1 <? List.length media_type_counts)%nat then
             let others := drop_label String.eqb top_media_type media_type_counts in
             second_media_type <- idxmax others ;;
             second_share <- series_max others ;;
             Returned ["The second most common media type is **"
                       ++ second_media_type ++ "** ("
                       ++ fixed false 1 second_share ++ "%)."]
           else Returned []) ;;
        Returned
          (["The most prevalent media type is **" ++ top_media_type ++ "** ("
            ++ fixed false 1 top_share ++ "%)."]
           +++ second_statement
           +++ ["In total, **" ++ digits (N.of_nat (List.length (present media_type)))
                ++ "** media type entries were counted."])
    end
  else if chart_type =? "top_locations" then
    location <- text_column data "location" ;;
    let location_counts := firstn 5 (value_counts location) in
    match location_counts with
    | [] => Returned ["No location data available for analysis."]
    | top :: _ =>
        Returned
          ([ranked_location "top location for mentions is" top]
           +++ match nth_error location_counts 1 with
              | Some second => [ranked_location "second top location is" second]
              | None => []
              end
           +++ match nth_error location_counts 2 with
              | Some third => [ranked_location "third top location is" third]
              | None => []
              end)
    end
  else Returned [].

End Insights.

(** ** Sample instances of the pandas entry points

    Small stand-ins used to run the embedding on concrete tables: ISO
    [YYYY-MM-DD] dates parsed cell by cell, integer literals, and a stable
    insertion sort. *)

Definition digit_value (c : ascii) : option Z :=
  let n := nat_of_ascii c in
  if (48 <=? n)%nat && (n <=? 57)%nat then Some (Z.of_nat (n - 48)) else None.

Fixpoint decimal_from (acc : Z) (s : string) : option Z :=
  match s with
  | EmptyString => Some acc
  | String c s' =>
      match digit_value c with
      | Some d => decimal_from (acc * 10 + d) s'
      | None => None
      end
  end.

Definition decimal (s : string) : option Z :=
  match s with
  | EmptyString => None
  | _ => decimal_from 0 s
  end.

Definition integer_literal (s : string) : option Q :=
  match s with
  | String "-" s' => option_map (fun z => inject_Z (- z)) (decimal s')
  | _ => option_map inject_Z (decimal s)
  end.

Definition iso_date (s : string) : option Timestamp :=
  if (String.length s =? 10)%nat
     && (substring 4 1 s =? "-") && (substring 7 1 s =? "-")
  then
    match decimal (substring 0 4 s), decimal (substring 5 2 s),
          decimal (substring 8 2 s) with
    | Some y, Some m, Some d =>
        if ((1 <=? m) && (m <=? 12) && (1 <=? d) && (d <=? 31))%Z
        then Some (mkTimestamp (mkDate y m d) 0)
        else None
    | _, _, _ => None
    end
  else None.

Definition iso_dates (column : list raw_cell) : list (option Timestamp) :=
  map (fun r => match r with RStr s => iso_date s | _ => None end) column.

Definition by_value_desc (a b : string * Q) : bool := Qle_bool (snd b) (snd a).

Definition insertion_sort_desc (s : list (string * Q)) : list (string * Q) :=
  sort_keys by_value_desc s.

(** ** Sample tables *)

(** The two-row upload of the specification's example; the second row has
    an unparseable date and an empty engagements cell. *)
Definition upload_two_rows : DataFrame raw_cell :=
  mkFrame [0; 1]%nat
    [("Date", [RStr "2024-01-01"; RStr "bad"]);
     ("Platform", [RStr "X"; RStr "X"]);
     ("Sentiment", [RStr "Positive"; RStr "Negative"]);
     ("Location", [RStr "NY"; RStr "NY"]);
     ("Engagements", [RNum 10; RNaN]);
     ("Media Type", [RStr "Video"; RStr "Image"])].

(** An upload without a [Media Type] column. *)
Definition upload_without_media_type : DataFrame raw_cell :=
  mkFrame [0]%nat
    [("Date", [RStr "2024-01-01"]);
     ("Platform", [RStr "X"]);
     ("Sentiment", [RStr "Positive"]);
     ("Location", [RStr "NY"]);
     ("Engagements", [RNum 10])].

(** A header-only upload, also without [Media Type]. *)
Definition upload_header_only : DataFrame raw_cell :=
  mkFrame []
    [("Date", []); ("Platform", []); ("Sentiment", []); ("Location", []);
     ("Engagements", [])].

(** An upload whose headers [Date] and [date] collide once normalized. *)
Definition upload_colliding_dates : DataFrame raw_cell :=
  mkFrame [0]%nat
    [("Date", [RStr "2024-01-01"]);
     ("date", [RStr "2024-01-02"]);
     ("Platform", [RStr "X"]);
     ("Sentiment", [RStr "Positive"]);
     ("Location", [RStr "NY"]);
     ("Engagements", [RNum 10]);
     ("Media Type", [RStr "Video"])].

(** Engagements given as text, one of them negative and one not a number. *)
Definition upload_text_engagements : DataFrame raw_cell :=
  mkFrame [0; 1; 2; 3]%nat
    [("Date", [RStr "2024-01-01"; RStr "2024-01-02"; RStr "n/a"; RStr "2024-01-03"]);
     ("Platform", [RStr "A"; RStr "B"; RStr "A"; RStr "B"]);
     ("Sentiment", [RStr "Positive"; RStr "Negative"; RStr "Neutral"; RStr "Positive"]);
     ("Location", [RStr "NY"; RStr "LA"; RStr "NY"; RStr "SF"]);
     ("Engagements", [RStr "-5"; RStr "many"; RStr "7"; RNaN]);
     ("Media Type", [RStr "Video"; RStr "Image"; RStr "Text"; RStr "Video"])].


Definition stamp (y m d : Z) : cell := Stamp (mkTimestamp (mkDate y m d) 0).

(** A cleaned set with platform sums A: 300, B: 700. *)
Definition cleaned_two_platforms : DataFrame cell :=
  mkFrame [0; 1; 2]%nat
    [("date", [stamp 2024 1 1; stamp 2024 1 2; stamp 2024 1 2]);
     ("platform", [Str "A"; Str "B"; Str "A"]);
     ("sentiment", [Str "Positive"; Str "Negative"; Str "Positive"]);
     ("location", [Str "NY"; Str "LA"; Str "NY"]);
     ("engagements", [Num 100; Num 700; Num 200]);
     ("media_type", [Str "Video"; Str "Image"; Str "Video"])].

(** A cleaned set with four distinct locations. *)
Definition cleaned_four_locations : DataFrame cell :=
  mkFrame [0; 1; 2; 3; 4; 5; 6]%nat
    [("date", [stamp 2024 1 1; stamp 2024 1 2; stamp 2024 1 2; stamp 2024 1 3;
               stamp 2024 1 3; stamp 2024 1 4; stamp 2024 1 5]);
     ("platform", [Str "A"; Str "B"; Str "A"; Str "B"; Str "A"; Str "B"; Str "A"]);
     ("sentiment", [Str "Positive"; Str "Negative"; Str "Positive"; NaN;
                    Str "Neutral"; Str "Positive"; Str "Negative"]);
     ("location", [Str "NY"; Str "LA"; Str "NY"; Str "SF"; NaN; Str "LA";
                   Str "NY"]);
     ("engagements", [Num 100; Num 700; Num 200; Num 0; Num (-3); Num 50;
                      Num 12]);
     ("media_type", [Str "Video"; Str "Image"; Str "Video"; Str "Text";
                     Str "Video"; Str "Image"; Str "Text"])].

(** The frame of a run, empty when there is none. *)
Definition frame_of (r : outcome (DataFrame cell * string)) : DataFrame cell :=
  match r with
  | Returned (out, _) => out
  | Failed _ => empty_frame
  end.

(** [needle in hay] *)
Fixpoint occurs (needle hay : string) : bool :=
  prefix needle hay
  || match hay with
     | EmptyString => false
     | String _ hay' => occurs needle hay'
     end.

(** A first call of [clean_data], the cache being empty. *)
Definition clean_sample (df : DataFrame raw_cell)
  : outcome (DataFrame cell * string) :=
  fst (cached_clean_data iso_dates integer_literal None df).
Definition insights_sample := generate_insights insertion_sort_desc.

Definition chart_categories : list string :=
  ["sentiment"; "engagement_trend"; "platform_engagements"; "media_type_mix";
   "top_locations"].

Definition is_some {A : Type} (o : option A) : bool :=
  match o with
  | Some _ => true
  | None => false
  end.

(** ** The specification's reading of the coerced engagements

    A missing cell and a text that is not a number give 0; a number, and a
    text that parses as one, keep their value, negative or not. *)
Definition expected_engagement (parse_number : string -> option Q)
  (r : raw_cell) : Q :=
  match r with
  | RNaN => 0
  | RStr s => match parse_number s with
              | Some v => v
              | None => 0
              end
  | RNum q => q
  end.

(** ** The Cleaned Record Set

    What the charts are drawn from: each of the six fields labels one
    column, with one cell per row; every date is a timestamp, every
    engagement a number, and the four category fields hold text or are
    missing. *)

Definition has_rows {A : Type} (read : outcome (list A)) (n : nat) : Prop :=
  exists l, read = Returned l /\ List.length l = n.

Definition cleaned_record_set (data : DataFrame cell) : Prop :=
  let n := List.length (index data) in
  (exists ds, date_column data "date" = Returned (map Some ds)
              /\ List.length ds = n)
  /\ has_rows (number_column data "engagements") n
  /\ has_rows (text_column data "platform") n
  /\ has_rows (text_column data "sentiment") n
  /\ has_rows (text_column data "location") n
  /\ has_rows (text_column data "media_type") n.

(** A raw column that can serve as a category: text or missing cells. *)
Definition text_only (col : list raw_cell) : Prop :=
  Forall (fun r => match r with RNum _ => False | _ => True end) col.

Definition category_columns : list string :=
  ["platform"; "sentiment"; "location"; "media_type"].

(** Chronological order on calendar dates. *)
Definition Date_le (a b : Date) : Prop := Date_leb a b = true.

(** The order [sort_values(ascending=False)] leaves a series in. *)
Definition descending (s : list (string * Q)) : Prop :=
  StronglySorted (fun a b => snd b <= snd a) s.

(** The openings of the three location statements, by rank. *)
Definition rank_phrases : list string :=
  ["top location for mentions is"; "second top location is";
   "third top location is"].

(** ** Chart tables

    The tables the five charts are drawn from, as the page script computes
    them from the cleaned frame. *)

Section Charts.

Variable sort_values_desc : list (string * Q) -> list (string * Q).

(** [cleaned_df['sentiment'].value_counts().reset_index()] *)
Definition sentiment_counts (cleaned_df : DataFrame cell)
  : outcome (list (string * Q)) :=
  sentiment <- text_column cleaned_df "sentiment" ;;
  Returned (value_counts sort_values_desc sentiment).

(** [cleaned_df.groupby(cleaned_df['date'].dt.date)['engagements'].sum()] *)
Definition daily_engagements (cleaned_df : DataFrame cell)
  : outcome (list (Date * Q)) :=
  dates <- date_column cleaned_df "date" ;;
  engagements <- number_column cleaned_df "engagements" ;;
  Returned (groupby_sum Date_eqb Date_leb dates engagements).

(** [cleaned_df.groupby('platform')['engagements'].sum()], then
    [sort_values('engagements', ascending=False)] *)
Definition platform_engagements (cleaned_df : DataFrame cell)
  : outcome (list (string * Q)) :=
  platforms <- text_column cleaned_df "platform" ;;
  engagements <- number_column cleaned_df "engagements" ;;
  Returned (sort_values_desc
              (groupby_sum String.eqb String.leb platforms engagements)).

(** [cleaned_df['media_type'].value_counts().reset_index()] *)
Definition media_type_counts (cleaned_df : DataFrame cell)
  : outcome (list (string * Q)) :=
  media_type <- text_column cleaned_df "media_type" ;;
  Returned (value_counts sort_values_desc media_type).

(** [cleaned_df['location'].value_counts().head(5).reset_index()] *)
Definition top_locations (cleaned_df : DataFrame cell)
  : outcome (list (string * Q)) :=
  location <- text_column cleaned_df "location" ;;
  Returned (firstn 5 (value_counts sort_values_desc location)).

End Charts.

(** ** The page script

    One run of the script, from "Main Application Logic" on, for one state
    of the upload widget. An element records what is put on the page and,
    for a chart, the table it is drawn from; styling arguments are left
    out. *)

Inductive element :=
| st_title (text : string)
| st_header (text : string)
| st_subheader (text : string)
| st_markdown (text : string)
| st_file_uploader (label : string)
| st_error (text : string)
| st_success (text : string)
| st_info (text : string)
| px_pie (chart_title : string) (slices : list (string * Q))
| px_line (chart_title : string) (points : list (Date * Q))
| px_bar (chart_title : string) (bars : list (string * Q)).

(** What a stretch of the script puts on the page, and whether it runs to
    its end; an exception stops the run and keeps what was shown. *)
Definition render (A : Type) : Type := list element * outcome A.

Definition emit (e : element) : render unit := ([e], Returned tt).

Definition emit_all (es : list element) : render unit := (es, Returned tt).

Definition lift {A : Type} (o : outcome A) : render A := ([], o).

Definition and_then {A B : Type} (m : render A) (k : A -> render B)
  : render B :=
  match snd m with
  | Returned a => let r := k a in (List.app (fst m) (fst r), snd r)
  | Failed e => (fst m, Failed e)
  end.

Notation "x <~ m ;; k" := (and_then m (fun x => k))
  (at level 61, m at next level, right associativity).
Notation "m ;;; k" := (and_then m (fun _ => k))
  (at level 61, right associativity).

(** [st.session_state] *)
Record session := mkSession {
  cleaned_data : DataFrame cell;
  file_name : string
}.

(** The two keys as the script initializes them. *)
Definition initial_session : session := mkSession empty_frame "".

Record UploadedFile := mkUpload {
  name : string;
  getvalue : string
}.

Definition is_chart (e : element) : bool :=
  match e with
  | px_pie _ _ | px_line _ _ | px_bar _ _ => true
  | _ => false
  end.

Definition is_error (e : element) : bool :=
  match e with
  | st_error _ => true
  | _ => false
  end.

Definition cleaning_summary : string := "
                Data has been successfully cleaned:
                * 'Date' column converted to datetime format (invalid dates filtered out).
                * Missing 'Engagements' values filled with 0.
                * Column names normalized to lowercase and underscores (e.g., 'Media Type' to 'media_type').
            ".

Section Script.

Context {K : Type}.

(** [pd.read_csv(io.BytesIO(content))]: the frame, or the text of the
    exception it raises. *)
Variable read_csv : string -> string + DataFrame raw_cell.

(** [clean_data] as the script sees it, behind its decorator; [K] is the
    state the decorator keeps between calls. *)
Variable cleaner :
  K -> DataFrame raw_cell -> outcome (DataFrame cell * string) * K.

Variable sort_values_desc : list (string * Q) -> list (string * Q).

(** [for insight in generate_insights(chart_type, cleaned_df):
       st.markdown(f"- {insight}")] *)
Definition show_insights (chart_type : string) (cleaned_df : DataFrame cell)
  : render unit :=
  insights <~ lift (generate_insights sort_values_desc chart_type cleaned_df) ;;
  emit_all (map (fun insight => st_markdown ("- " ++ insight)) insights).

(** Section 3 of the page. *)
Definition charts (cleaned_df : DataFrame cell) : render unit :=
  emit (st_header "3. Interactive Media Intelligence Charts") ;;;
  emit (st_subheader "Sentiment Breakdown") ;;;
  table <~ lift (sentiment_counts sort_values_desc cleaned_df) ;;
  emit (px_pie "Distribution of Sentiments" table) ;;;
  emit (st_markdown "**Top Insights:**") ;;;
  show_insights "sentiment" cleaned_df ;;;
  emit (st_markdown "---") ;;;
  emit (st_subheader "Engagement Trend over Time") ;;;
  table <~ lift (daily_engagements cleaned_df) ;;
  emit (px_line "Total Engagements Over Time" table) ;;;
  emit (st_markdown "**Top Insights:**") ;;;
  show_insights "engagement_trend" cleaned_df ;;;
  emit (st_markdown "---") ;;;
  emit (st_subheader "Platform Engagements") ;;;
  table <~ lift (platform_engagements sort_values_desc cleaned_df) ;;
  emit (px_bar "Total Engagements by Platform" table) ;;;
  emit (st_markdown "**Top Insights:**") ;;;
  show_insights "platform_engagements" cleaned_df ;;;
  emit (st_markdown "---") ;;;
  emit (st_subheader "Media Type Mix") ;;;
  table <~ lift (media_type_counts sort_values_desc cleaned_df) ;;
  emit (px_pie "Distribution of Media Types" table) ;;;
  emit (st_markdown "**Top Insights:**") ;;;
  show_insights "media_type_mix" cleaned_df ;;;
  emit (st_markdown "---") ;;;
  emit (st_subheader "Top 5 Locations") ;;;
  table <~ lift (top_locations sort_values_desc cleaned_df) ;;
  emit (px_bar "Top 5 Locations by Mentions" table) ;;;
  emit (st_markdown "**Top Insights:**") ;;;
  show_insights "top_locations" cleaned_df ;;;
  emit (st_markdown "---").

(** The upload handling: the session and decorator state it leaves, and
    what it shows. *)
Definition handle_upload (st : session) (k : K)
  (uploaded_file : option UploadedFile) : session * K * render unit :=
  match uploaded_file with
  | Some f =>
      let '(st1, df, shown) :=
        match read_csv (getvalue f) with
        | inr df => (mkSession (cleaned_data st) (name f), df, [])
        | inl e =>
            (st, empty_frame, [st_error ("Error reading CSV file: " ++ e)])
        end in
      if negb (empty df) then
        match cleaner k df with
        | (Returned (cleaned_df, cleaning_error), k') =>
            if negb (cleaning_error =? "") then
              (mkSession empty_frame (file_name st1), k',
               (List.app shown [st_error cleaning_error], Returned tt))
            else
              (mkSession cleaned_df (file_name st1), k',
               (List.app shown
                  [st_success ("Selected: **" ++ file_name st1 ++ "**");
                   st_markdown "---";
                   st_header "2. Data Cleaning Summary";
                   st_markdown cleaning_summary;
                   st_info ("Successfully processed **"
                            ++ digits (N.of_nat (List.length (index cleaned_df)))
                            ++ "** valid rows.")],
                Returned tt))
        | (Failed e, k') => (st1, k', (shown, Failed e))
        end
      else (mkSession empty_frame (file_name st1), k, (shown, Returned tt))
  | None =>
      if negb (file_name st =? "") then
        (mkSession empty_frame "", k, ([], Returned tt))
      else (st, k, ([], Returned tt))
  end.

Definition run (st : session) (k : K) (uploaded_file : option UploadedFile)
  : session * K * render unit :=
  let '(st', k', shown) := handle_upload st k uploaded_file in
  (st', k',
   emit (st_title "Interactive Media Intelligence Dashboard") ;;;
   emit (st_markdown "---") ;;;
   emit (st_header "1. Upload Your CSV File") ;;;
   emit (st_markdown "Please upload a CSV file with the following columns: `Date`, `Platform`, `Sentiment`, `Location`, `Engagements`, `Media Type`.") ;;;
   emit (st_file_uploader "Choose a CSV file") ;;;
   shown ;;;
   emit (st_markdown "---") ;;;
   (if negb (empty (cleaned_data st')) then charts (cleaned_data st')
    else emit (st_info "Upload a CSV file to see the interactive dashboard."))).

(** The session and decorator state after a series of runs, one per state
    of the upload widget. *)
Fixpoint reruns (st : session) (k : K)
  (uploads : list (option UploadedFile)) : session * K :=
  match uploads with
  | [] => (st, k)
  | uploaded_file :: later =>
      let '(st', k', _) := run st k uploaded_file in reruns st' k' later
  end.

End Script.

(** ** Reference descriptions used by the further properties *)

Definition is_upper (c : ascii) : bool :=
  (65 <=? nat_of_ascii c)%nat && (nat_of_ascii c <=? 90)%nat.

(** Text of ASCII characters only. On such text [str.lower] changes the
    letters A-Z and nothing else, which is what [lower] does on every
    text. *)
Definition ascii_text (s : string) : bool :=
  forallb (fun c => (nat_of_ascii c <? 128)%nat) (list_ascii_of_string s).

(** A column of a successfully cleaned frame, from the raw column it stems
    from: the label normalized, the cells coerced for [date] and
    [engagements] and unchanged otherwise, the rows restricted to [keep]. *)
Definition cleaned_column (parse_number : string -> option Q)
  (parsed : list (option Timestamp)) (c : string * list raw_cell)
  : string * list cell :=
  let label := normalize_name (fst c) in
  (label,
   mask (map is_some parsed)
     (if label =? "engagements" then
        map (fun r => Num (expected_engagement parse_number r)) (snd c)
      else if label =? "date" then map date_cell parsed
      else map inject (snd c))).

(** The column each chart category reads first. *)
Definition first_column_read : list (string * string) :=
  [("sentiment", "sentiment"); ("engagement_trend", "date");
   ("platform_engagements", "platform"); ("media_type_mix", "media_type");
   ("top_locations", "location")].

(** The percentage of the entries of [seen] that equal [k]. *)
Definition share_of (seen : list string) (k : string) : Q :=
  inject_Z (Z.of_nat (count_of String.eqb seen k))
  / inject_Z (Z.of_nat (List.length seen)) * 100.

(** A percentage that lies exactly halfway between two values of one
    decimal, such as 28.75. *)
Definition rounding_tie (q : Q) : bool :=
  Qeq_bool (q * 10 - inject_Z (Qfloor (q * 10))) (1 # 2).

(** Fewer than 2^40 entries, none of whose percentages is a rounding tie.
    The program computes a percentage in float64, as the count divided by
    the total and then multiplied by 100, which is off the exact value by
    less than 3e-14; with fewer than 2^40 entries an exact percentage that
    is no tie is further than that from every tie, so the float64 value
    prints to one decimal as the exact one does, and shares compare as
    their counts do. *)
Definition shares_print_exactly (seen : list string) : bool :=
  (Z.of_nat (List.length seen) <? 2 ^ 40)%Z
  && forallb (fun k => negb (rounding_tie (share_of seen k))) seen.

(** The sum of the absolute values of whole numbers. *)
Fixpoint abs_total (vals : list Q) : Z :=
  match vals with
  | [] => 0
  | q :: vals' => Z.abs (Qnum q) + abs_total vals'
  end.

(** Whole numbers whose absolute values add up to less than 2^52. On such a
    column the sums of the program are exact, in int64 and in float64 alike,
    whatever the order of summation, and a sum prints as the whole number
    it is. The float64 quotient of such a sum [s] by a count [n] is within
    [|s| / n * 2^-53], less than [1 / (2 * n)], of the exact quotient, which
    is either a multiple of one half, and then a float64 itself, or at
    least [1 / (2 * n)] away from every multiple of one half: both round to
    the same whole number. *)
Definition small_whole_numbers (vals : list Q) : bool :=
  forallb (fun q => (Qden q =? 1)%positive) vals
  && (abs_total vals <? 2 ^ 52)%Z.







(** The shape the sentiment and media type branches of
    [generate_insights] share, with the wording left open. *)
Definition share_statements
  (sort_values_desc : list (string * Q) -> list (string * Q))
  (first_text second_text : string -> Q -> string) (last_text : string)
  (keys : list (option string)) : outcome (list string) :=
  let counts := value_percentages sort_values_desc keys in
  match counts with
  | [] => Returned []
  | _ :: _ =>
      top <- idxmax counts ;;
      top_share <- series_max counts ;;
      second_statement <-
        (if (1 <? List.length counts)%nat then
           let others := drop_label String.eqb top counts in
           second <- idxmax others ;;
           second_share <- series_max others ;;
           Returned [second_text second second_share]
         else Returned []) ;;
      Returned ([first_text top top_share] +++ second_statement +++ [last_text])
  end.

(** The openings of the two ranked platform statements. *)
Definition platform_phrases : list string :=
  ["The platform with the highest engagement is **";
   "The second highest engaging platform is **"].

Definition platform_statement (opening : string) (e : string * Q) : string :=
  opening ++ fst e ++ "** with **" ++ fixed true 0 (snd e) ++ "** engagements.".

(** The number of charts among the elements shown. *)
Definition chart_count (es : list element) : nat :=
  List.length (filter is_chart es).

(** What every run shows first. *)
Definition page_top : list element :=
  [st_title "Interactive Media Intelligence Dashboard";
   st_markdown "---";
   st_header "1. Upload Your CSV File";
   st_markdown "Please upload a CSV file with the following columns: `Date`, `Platform`, `Sentiment`, `Location`, `Engagements`, `Media Type`.";
   st_file_uploader "Choose a CSV file"].

Definition prompt : element :=
  st_info "Upload a CSV file to see the interactive dashboard.".

(** What the upload handling shows after a cleaning without message. *)
Definition success_part (file : string) (cleaned_df : DataFrame cell)
  : list element :=
  [st_success ("Selected: **" ++ file ++ "**");
   st_markdown "---";
   st_header "2. Data Cleaning Summary";
   st_markdown cleaning_summary;
   st_info ("Successfully processed **"
            ++ digits (N.of_nat (List.length (index cleaned_df)))
            ++ "** valid rows.")].

(** An upload comes with a file name. *)
Definition named (uploaded_file : option UploadedFile) : Prop :=
  match uploaded_file with
  | Some f => name f <> ""
  | None => True
  end.

(** A stand-in for [pd.read_csv] on a few named contents. *)
Definition sample_read_csv (content : string) : string + DataFrame raw_cell :=
  if content =? "two rows" then inr upload_two_rows
  else if content =? "text engagements" then inr upload_text_engagements
  else if content =? "without media type" then inr upload_without_media_type
  else if content =? "header only" then inr upload_header_only
  else if content =? "colliding dates" then inr upload_colliding_dates
  else inl "No columns to parse from file".

Definition run_sample :=
  run sample_read_csv (cached_clean_data iso_dates integer_literal)
    insertion_sort_desc.

Definition reruns_sample :=
  reruns sample_read_csv (cached_clean_data iso_dates integer_literal)
    insertion_sort_desc.

(** ** Further sample tables and uploads *)



(** An upload in which no date can be parsed. *)
Definition upload_no_valid_date : DataFrame raw_cell :=
  mkFrame [0; 1]%nat
    [("Date", [RStr "yesterday"; RNaN]);
     ("Platform", [RStr "X"; RStr "Y"]);
     ("Sentiment", [RStr "Positive"; RStr "Negative"]);
     ("Location", [RStr "NY"; RStr "LA"]);
     ("Engagements", [RNum 10; RNum 20]);
     ("Media Type", [RStr "Video"; RStr "Image"])].

(** Data with rows but without a [sentiment] column. *)
Definition cleaned_without_sentiment : DataFrame cell :=
  mkFrame [0]%nat
    [("date", [stamp 2024 1 1]);
     ("platform", [Str "A"]);
     ("location", [Str "NY"]);
     ("engagements", [Num 100]);
     ("media_type", [Str "Video"])].

Definition file_two_rows : UploadedFile := mkUpload "two.csv" "two rows".
Definition file_text_engagements : UploadedFile :=
  mkUpload "text.csv" "text engagements".
Definition file_without_media_type : UploadedFile :=
  mkUpload "short.csv" "without media type".

(** * Properties *)

(** ** Column Normalizer *)

Lemma normalize_ascii_idempotent (c : ascii) :
  let f := fun c => if Ascii.eqb (lower_ascii c) " " then "_"%char
                    else lower_ascii c in
  f (f c) = f c.
Proof.
  destruct c as [[] [] [] [] [] [] [] []]; reflexivity.
Qed.

Lemma normalize_name_unfold (s : string) :
  normalize_name s =
  map_string (fun c => if Ascii.eqb (lower_ascii c) " " then "_"%char
                       else lower_ascii c) s.
Proof.
  unfold normalize_name, replace_space, lower.
  induction s as [|c s IH]; simpl; [reflexivity | now rewrite IH].
Qed.

Lemma normalize_name_idempotent (s : string) :
  normalize_name (normalize_name s) = normalize_name s.
Proof.
  rewrite !normalize_name_unfold.
  induction s as [|c s IH]; simpl; [reflexivity|].
  rewrite IH. f_equal. apply normalize_ascii_idempotent.
Qed.

(** C8. Column name normalization (lower-casing, spaces to underscores) is
    idempotent: normalizing a list of already-normalized names leaves it
    unchanged. *)
Theorem normalization_idempotent (names : list string) :
  map normalize_name (map normalize_name names) = map normalize_name names.
Proof.
  rewrite map_map. apply map_ext. intro s. apply normalize_name_idempotent.
Qed.

Lemma normalize_columns_idempotent {C : Type} (df : DataFrame C) :
  normalize_columns (normalize_columns df) = normalize_columns df.
Proof.
  unfold normalize_columns; simpl. f_equal.
  rewrite map_map. apply map_ext. intros [l v]; simpl.
  now rewrite normalize_name_idempotent.
Qed.

Lemma labels_normalize_columns {C : Type} (df : DataFrame C) :
  labels (normalize_columns df) = map normalize_name (labels df).
Proof.
  unfold labels, normalize_columns; simpl. rewrite !map_map. reflexivity.
Qed.

(** ** Schema Validator *)

Lemma contains_In (l : list string) (s : string) :
  contains l s = true <-> In s l.
Proof.
  unfold contains. rewrite existsb_exists. split.
  - intros (x & Hx & E). apply String.eqb_eq in E. now subst.
  - intro H. exists s. split; [assumption | apply String.eqb_refl].
Qed.

Lemma missing_columns_In {C : Type} (df : DataFrame C) (c : string) :
  In c (missing_columns df) <-> In c required_columns /\ ~ In c (labels df).
Proof.
  unfold missing_columns. rewrite filter_In, negb_true_iff.
  split; intros [H1 H2]; (split; [assumption|]).
  - intro Hin. apply contains_In in Hin. congruence.
  - destruct (contains (labels df) c) eqn:E; [|reflexivity].
    apply contains_In in E. contradiction.
Qed.

Lemma missing_columns_nil {C : Type} (df : DataFrame C) :
  missing_columns df = [] <->
  (forall c, In c required_columns -> In c (labels df)).
Proof.
  split.
  - intros E c Hc. destruct (contains (labels df) c) eqn:Hin.
    + now apply contains_In.
    + exfalso. assert (H : In c (missing_columns df)).
      { apply missing_columns_In. split; [assumption|].
        rewrite <- contains_In. congruence. }
      now rewrite E in H.
  - intro H. destruct (missing_columns df) as [|c l] eqn:E; [reflexivity|].
    exfalso. assert (Hc : In c (missing_columns df)) by (rewrite E; now left).
    apply missing_columns_In in Hc. destruct Hc as [Hr Hn]. now apply Hn, H.
Qed.

(** ** The decorated call *)

(** On an empty cache the decorated call returns what the body returns. *)
Lemma cold_cache_runs_body (to_datetime : list raw_cell -> list (option Timestamp))
  (parse_number : string -> option Q) (df : DataFrame raw_cell) :
  fst (cached_clean_data to_datetime parse_number None df)
  = clean_data to_datetime parse_number df.
Proof.
  unfold cached_clean_data.
  now destruct (clean_data to_datetime parse_number df).
Qed.

(** A filled cache answers the call and stays as it is. *)
Lemma warm_cache_answers (to_datetime : list raw_cell -> list (option Timestamp))
  (parse_number : string -> option Q) (result : DataFrame cell * string)
  (df : DataFrame raw_cell) :
  cached_clean_data to_datetime parse_number (Some result) df
  = (Returned result, Some result).
Proof.
  reflexivity.
Qed.

Section CleaningProperties.

Variable to_datetime : list raw_cell -> list (option Timestamp).
Variable parse_number : string -> option Q.

Local Notation "'clean'" := (clean_data to_datetime parse_number).
Local Notation "'first_call'" :=
  (cached_clean_data to_datetime parse_number None).

(** A call of [clean_data] that the cache does not answer, on an empty
    table, returns the empty frame and the message "No data to clean or
    process.", whatever the table's columns are: neither normalization nor
    the schema check is reached. *)
Theorem empty_table_short_circuits (df : DataFrame raw_cell) :
  empty df = true ->
  first_call df
  = (Returned (empty_frame, "No data to clean or process."),
     Some (empty_frame, "No data to clean or process.")).
Proof.
  intro H. unfold cached_clean_data, clean_data. rewrite H. reflexivity.
Qed.

(** C1, as the code has it, for a call of [clean_data] that the cache does
    not answer. The columns reported missing are the required names absent
    from the normalized labels. For a non-empty table with some of them
    missing, the call returns the empty frame and a message that lists them
    in their normalized spelling, in the order of the required list,
    followed by a fixed hint naming all six columns. When all six are
    present no such message is returned. *)
Theorem missing_columns_reported (df : DataFrame raw_cell) :
  let missing := missing_columns (normalize_columns df) in
  (forall c, In c missing <->
             In c required_columns /\ ~ In c (map normalize_name (labels df)))
  /\ (empty df = false -> missing <> [] ->
      fst (first_call df) =
      Returned (empty_frame,
                "Missing required columns: " ++ concat ", " missing
                ++ ". Please ensure your CSV has 'Date', 'Platform', 'Sentiment', 'Location', 'Engagements', 'Media Type' columns."))
  /\ ((forall c, In c required_columns ->
                 In c (map normalize_name (labels df))) ->
      forall out msg, fst (first_call df) = Returned (out, msg) ->
                      msg = "" \/ msg = "No data to clean or process.").
Proof.
  cbv zeta. rewrite cold_cache_runs_body. split; [|split].
  - intro c. rewrite missing_columns_In, labels_normalize_columns. reflexivity.
  - intros He Hm. unfold clean_data. rewrite He.
    destruct (missing_columns (normalize_columns df)); [congruence | reflexivity].
  - intros Hall out msg. unfold clean_data.
    destruct (empty df).
    + intro E. inversion E. now right.
    + rewrite <- labels_normalize_columns in Hall.
      apply missing_columns_nil in Hall. rewrite Hall.
      destruct (get_column (normalize_columns df) "date"); simpl; [|discriminate].
      destruct (get_column (normalize_columns df) "engagements"); simpl;
        [|discriminate].
      match goal with |- context [dropna ?d ?l] => destruct (dropna d l) end;
        simpl; [|discriminate].
      intro E. inversion E. now left.
Qed.

End CleaningProperties.

(** ** Insight Generator: dispatch *)

Section DispatchProperties.

Variable sort_values_desc : list (string * Q) -> list (string * Q).

Local Notation "'insights'" := (generate_insights sort_values_desc).

(** C4. On an empty cleaned set each of the five chart categories yields
    exactly the one statement "No data available for insights.". *)
Theorem empty_data_single_statement (data : DataFrame cell) :
  empty data = true ->
  Forall (fun chart_type =>
            insights chart_type data
            = Returned ["No data available for insights."])
         chart_categories.
Proof.
  intro H. unfold chart_categories.
  repeat constructor; unfold generate_insights; rewrite H; reflexivity.
Qed.

(** C10. On non-empty data a chart type outside the five categories yields
    the empty list of statements, and no failure. *)
Theorem unknown_category_no_statements (chart_type : string)
  (data : DataFrame cell) :
  empty data = false ->
  ~ In chart_type chart_categories ->
  insights chart_type data = Returned [].
Proof.
  intros He Hn. unfold generate_insights. rewrite He.
  repeat match goal with
  | |- context [chart_type =? ?s] =>
      destruct (chart_type =? s) eqn:E;
      [apply String.eqb_eq in E; exfalso; apply Hn; rewrite E;
       unfold chart_categories; simpl; tauto | clear E]
  end.
  reflexivity.
Qed.

End DispatchProperties.

(** ** Frames: columns and masks *)

Lemma filter_label_map {C D : Type} (g : string * list C -> string * list D)
  (label : string) (cols : list (string * list C)) :
  (forall c, fst (g c) = fst c) ->
  filter (fun c => fst c =? label) (map g cols)
  = map g (filter (fun c => fst c =? label) cols).
Proof.
  intro Hg. induction cols as [|c cols IH]; simpl; [reflexivity|].
  rewrite Hg. destruct (fst c =? label); simpl; now rewrite IH.
Qed.

Lemma get_column_Returned {C : Type} (df : DataFrame C) (label : string)
  (v : list C) :
  get_column df label = Returned v <->
  filter (fun c => fst c =? label) (columns df) = [(label, v)].
Proof.
  unfold get_column. split.
  - destruct (filter _ (columns df)) as [|c [|c' l]] eqn:E; try discriminate.
    intro H. inversion H; subst.
    assert (Hin : In c (filter (fun c => fst c =? label) (columns df)))
      by (rewrite E; now left).
    apply filter_In in Hin. destruct Hin as [_ Hl].
    apply String.eqb_eq in Hl. destruct c; simpl in *; now subst.
  - intro E. now rewrite E.
Qed.

Lemma get_column_In {C : Type} (df : DataFrame C) (label : string)
  (v : list C) :
  get_column df label = Returned v -> In (label, v) (columns df).
Proof.
  intro H. apply get_column_Returned in H.
  assert (Hin : In (label, v) (filter (fun c => fst c =? label) (columns df)))
    by (rewrite H; now left).
  now apply filter_In in Hin.
Qed.

Lemma get_column_map {C D : Type} (h : list C -> list D) (df : DataFrame C)
  (idx : list nat) (label : string) (v : list C) :
  get_column df label = Returned v ->
  get_column (mkFrame idx (map (fun c => (fst c, h (snd c))) (columns df))) label
  = Returned (h v).
Proof.
  intro H. apply get_column_Returned in H. apply get_column_Returned. simpl.
  rewrite filter_label_map by reflexivity. now rewrite H.
Qed.

Lemma get_column_set_same {C : Type} (df : DataFrame C) (label : string)
  (v w : list C) :
  get_column df label = Returned v ->
  get_column (set_column df label w) label = Returned w.
Proof.
  intro H. apply get_column_Returned in H. apply get_column_Returned.
  unfold set_column; simpl. rewrite filter_label_map.
  - rewrite H. simpl. now rewrite String.eqb_refl.
  - intro c. now destruct (fst c =? label).
Qed.

Lemma get_column_set_other {C : Type} (df : DataFrame C) (label other : string)
  (w : list C) :
  label <> other ->
  get_column (set_column df label w) other = get_column df other.
Proof.
  intro Hne. unfold get_column, set_column; simpl.
  rewrite filter_label_map by (intro c; now destruct (fst c =? label)).
  rewrite map_ext_in with (g := fun c => c); [now rewrite map_id|].
  intros c Hc. apply filter_In in Hc. destruct Hc as [_ Hl].
  apply String.eqb_eq in Hl.
  destruct (fst c =? label) eqn:E; [|reflexivity].
  apply String.eqb_eq in E. congruence.
Qed.

Lemma mask_length {A : Type} (keep : list bool) (l : list A) :
  (List.length (mask keep l) <= List.length l)%nat.
Proof.
  revert l. induction keep as [|b keep IH]; intros [|x l]; simpl; try lia.
  specialize (IH l). destruct b; simpl; lia.
Qed.

Lemma mask_map {A B : Type} (f : A -> B) (keep : list bool) (l : list A) :
  mask keep (map f l) = map f (mask keep l).
Proof.
  revert l. induction keep as [|b keep IH]; intros [|x l]; simpl;
    try reflexivity.
  destruct b; simpl; now rewrite IH.
Qed.

Lemma In_mask {A : Type} (keep : list bool) (l : list A) (x : A) :
  In x (mask keep l) <->
  exists p, nth_error keep p = Some true /\ nth_error l p = Some x.
Proof.
  revert l. induction keep as [|b keep IH]; intros [|y l]; simpl.
  - split; [tauto | intros ([|p] & H & _); discriminate].
  - split; [tauto | intros ([|p] & H & _); discriminate].
  - split; [tauto | intros ([|p] & _ & H); discriminate].
  - destruct b; simpl; rewrite IH; split.
    + intros [E | (p & H1 & H2)]; [exists O; now subst | now exists (S p)].
    + intros ([|p] & H1 & H2); simpl in *;
        [left; congruence | right; now exists p].
    + intros (p & H1 & H2). now exists (S p).
    + intros ([|p] & H1 & H2); simpl in *; [discriminate | now exists p].
Qed.

Lemma notna_date_cell (parsed : list (option Timestamp)) :
  map notna (map date_cell parsed) = map is_some parsed.
Proof.
  rewrite map_map. apply map_ext. now intros [t|].
Qed.

Lemma mask_date_cell (parsed : list (option Timestamp)) :
  mask (map is_some parsed) (map date_cell parsed) = map Stamp (present parsed).
Proof.
  induction parsed as [|[t|] parsed IH]; simpl; now rewrite ?IH.
Qed.

Lemma nth_error_is_some {A : Type} (l : list (option A)) (p : nat) :
  nth_error (map is_some l) p = Some true <->
  exists a, nth_error l p = Some (Some a).
Proof.
  rewrite nth_error_map. destruct (nth_error l p) as [[a|]|]; simpl; split;
    try discriminate; try (intros (a' & H); discriminate).
  - intros _. now exists a.
  - reflexivity.
Qed.

(** ** Type Coercer *)

Section CoercionProperties.

Variable to_datetime : list raw_cell -> list (option Timestamp).
Variable parse_number : string -> option Q.

Local Notation "'clean'" := (clean_data to_datetime parse_number).
Local Notation "'first_call'" :=
  (cached_clean_data to_datetime parse_number None).

Lemma to_numeric_expected (r : raw_cell) :
  fillna0 (to_numeric parse_number r) = expected_engagement parse_number r.
Proof.
  now destruct r.
Qed.

(** What a successful run returns: the rows whose date parsed, with the two
    coerced columns in place. *)
Lemma clean_data_returns (df : DataFrame raw_cell) (dcol ecol : list raw_cell) :
  empty df = false ->
  missing_columns (normalize_columns df) = [] ->
  get_column (normalize_columns df) "date" = Returned dcol ->
  get_column (normalize_columns df) "engagements" = Returned ecol ->
  let keep := map is_some (to_datetime dcol) in
  exists out,
    clean df = Returned (out, "")
    /\ index out = mask keep (index df)
    /\ get_column out "date" = Returned (map Stamp (present (to_datetime dcol)))
    /\ get_column out "engagements"
       = Returned (map (fun r => Num (expected_engagement parse_number r))
                       (mask keep ecol))
    /\ (forall label col,
          label <> "date" -> label <> "engagements" ->
          get_column (normalize_columns df) label = Returned col ->
          get_column out label = Returned (map inject (mask keep col))).
Proof.
  intros He Hm Hd Hg keep.
  set (df1 := set_column (map_frame inject (normalize_columns df)) "date"
                (map date_cell (to_datetime dcol))).
  set (df2 := set_column df1 "engagements"
                (map (fun r => Num (fillna0 (to_numeric parse_number r))) ecol)).
  assert (Hd2 : get_column df2 "date"
                = Returned (map date_cell (to_datetime dcol))).
  { unfold df2. rewrite get_column_set_other by discriminate.
    unfold df1. eapply get_column_set_same.
    apply (get_column_map (map inject)), Hd. }
  assert (He2 : get_column df2 "engagements"
                = Returned (map (fun r => Num (fillna0 (to_numeric parse_number r)))
                                ecol)).
  { unfold df2. eapply get_column_set_same.
    unfold df1. rewrite get_column_set_other by discriminate.
    apply (get_column_map (map inject)), Hg. }
  eexists. split; [|split; [|split; [|split]]].
  - unfold clean_data. rewrite He, Hm, Hd. simpl. rewrite Hg. simpl.
    fold df1. fold df2. unfold dropna. rewrite Hd2. simpl. reflexivity.
  - simpl. now rewrite notna_date_cell.
  - rewrite notna_date_cell. fold keep.
    rewrite (get_column_map (mask keep) df2 _ _ _ Hd2).
    unfold keep. now rewrite mask_date_cell.
  - rewrite notna_date_cell. fold keep.
    rewrite (get_column_map (mask keep) df2 _ _ _ He2).
    rewrite mask_map. f_equal. apply map_ext. intro r.
    now rewrite to_numeric_expected.
  - intros label col Hl1 Hl2 Hc. rewrite notna_date_cell. fold keep.
    assert (Hc2 : get_column df2 label = Returned (map inject col)).
    { unfold df2. rewrite get_column_set_other by congruence.
      unfold df1. rewrite get_column_set_other by congruence.
      apply (get_column_map (map inject)), Hc. }
    rewrite (get_column_map (mask keep) df2 _ _ _ Hc2).
    now rewrite mask_map.
Qed.

(** C2, as the code has it, for a call of [clean_data] that the cache does
    not answer. Take a non-empty table with all six required columns in
    which [date] and [engagements] each label one column. The call returns
    a frame and no message; a row is in it exactly when [to_datetime]
    parsed its date cell, the retained rows carry the parsed timestamps,
    and the frame has no more rows than the table. *)
Theorem rows_kept_iff_date_parses (df : DataFrame raw_cell)
  (dcol ecol : list raw_cell) :
  empty df = false ->
  (forall c, In c required_columns -> In c (map normalize_name (labels df))) ->
  get_column (normalize_columns df) "date" = Returned dcol ->
  get_column (normalize_columns df) "engagements" = Returned ecol ->
  exists out,
    first_call df = (Returned (out, ""), Some (out, ""))
    /\ index out = mask (map is_some (to_datetime dcol)) (index df)
    /\ (forall i, In i (index out) <->
                  exists p t, nth_error (index df) p = Some i
                              /\ nth_error (to_datetime dcol) p = Some (Some t))
    /\ get_column out "date" = Returned (map Stamp (present (to_datetime dcol)))
    /\ (List.length (index out) <= List.length (index df))%nat.
Proof.
  intros He Hall Hd Hg.
  rewrite <- labels_normalize_columns in Hall. apply missing_columns_nil in Hall.
  destruct (clean_data_returns df dcol ecol He Hall Hd Hg)
    as (out & Hout & Hidx & Hdate & _).
  exists out. split; [unfold cached_clean_data; now rewrite Hout|].
  repeat split; try assumption.
  - rewrite Hidx. intro H. apply In_mask in H. destruct H as (p & Hk & Hi).
    apply nth_error_is_some in Hk. destruct Hk as (t & Ht). now exists p, t.
  - rewrite Hidx. intros (p & t & Hi & Ht). apply In_mask. exists p.
    split; [|assumption]. apply nth_error_is_some. now exists t.
  - rewrite Hidx. apply mask_length.
Qed.

(** Whenever a call of [clean_data] that the cache does not answer returns
    a frame with rows in it, the engagements of the retained rows are: 0
    for a missing cell and for text that is not a number, and the parsed
    value, negative or not, otherwise. *)
Theorem engagements_default_to_zero (df : DataFrame raw_cell)
  (out : DataFrame cell) (msg : string) :
  fst (first_call df) = Returned (out, msg) ->
  index out <> [] ->
  exists dcol ecol,
    get_column (normalize_columns df) "date" = Returned dcol
    /\ get_column (normalize_columns df) "engagements" = Returned ecol
    /\ get_column out "engagements"
       = Returned (map (fun r => Num (expected_engagement parse_number r))
                       (mask (map is_some (to_datetime dcol)) ecol)).
Proof.
  rewrite cold_cache_runs_body. intros Hc Hne.
  destruct (empty df) eqn:He.
  { unfold clean_data in Hc. rewrite He in Hc. inversion Hc; subst.
    now contradiction Hne. }
  destruct (missing_columns (normalize_columns df)) as [|m ms] eqn:Hm.
  2:{ unfold clean_data in Hc. rewrite He, Hm in Hc. inversion Hc; subst.
      now contradiction Hne. }
  destruct (get_column (normalize_columns df) "date") as [dcol|e] eqn:Hd.
  2:{ unfold clean_data in Hc. rewrite He, Hm, Hd in Hc. discriminate. }
  destruct (get_column (normalize_columns df) "engagements") as [ecol|e] eqn:Hg.
  2:{ unfold clean_data in Hc. rewrite He, Hm, Hd in Hc. simpl in Hc.
      rewrite Hg in Hc. discriminate. }
  destruct (clean_data_returns df dcol ecol He Hm Hd Hg)
    as (out' & Hout & _ & _ & Heng & _).
  rewrite Hout in Hc. inversion Hc; subst.
  now exists dcol, ecol.
Qed.

End CoercionProperties.

(** ** Series operations *)

Lemma Date_compare_eq (a b : Date) : Date_compare a b = Eq <-> a = b.
Proof.
  destruct a as [y m d], b as [y' m' d']. unfold Date_compare; simpl. split.
  - destruct (Z.compare_spec y y'); try discriminate.
    destruct (Z.compare_spec m m'); try discriminate.
    destruct (Z.compare_spec d d'); try discriminate.
    intros _. now subst.
  - intro E. inversion E; subst. now rewrite !Z.compare_refl.
Qed.

Lemma Date_eqb_eq (a b : Date) : Date_eqb a b = true <-> a = b.
Proof.
  unfold Date_eqb. rewrite <- Date_compare_eq.
  destruct (Date_compare a b); split; congruence.
Qed.

Ltac date_order :=
  unfold Date_leb, Date_compare; simpl;
  repeat match goal with
  | |- context [(?x ?= ?y)%Z] => destruct (Z.compare_spec x y)
  | H : context [(?x ?= ?y)%Z] |- _ => destruct (Z.compare_spec x y)
  end; subst; try reflexivity; try discriminate; try lia; auto.

Lemma Date_leb_total (a b : Date) : Date_leb a b = true \/ Date_leb b a = true.
Proof.
  destruct a as [y m d], b as [y' m' d']. date_order.
Qed.

Lemma Date_leb_trans (a b c : Date) :
  Date_leb a b = true -> Date_leb b c = true -> Date_leb a c = true.
Proof.
  destruct a as [y m d], b as [y' m' d'], c as [y'' m'' d''].
  unfold Date_leb, Date_compare; simpl. intros H1 H2.
  date_order.
Qed.

Lemma keyed_Some {K V : Type} (ks : list K) (vs : list V) :
  keyed (map Some ks) vs = combine ks vs.
Proof.
  revert vs. induction ks as [|k ks IH]; intros [|v vs]; simpl;
    try reflexivity.
  now rewrite IH.
Qed.

Lemma map_fst_combine {A B : Type} (l : list A) (l' : list B) :
  List.length l = List.length l' -> map fst (combine l l') = l.
Proof.
  revert l'. induction l as [|a l IH]; intros [|b l'] H; simpl in *;
    try reflexivity; try discriminate.
  f_equal. apply IH. lia.
Qed.

Lemma map_fst_keyed {K V : Type} (ks : list (option K)) (vs : list V) :
  List.length ks = List.length vs -> map fst (keyed ks vs) = present ks.
Proof.
  revert vs. induction ks as [|[k|] ks IH]; intros [|v vs] H; simpl in *;
    try reflexivity; try discriminate.
  - f_equal. apply IH. lia.
  - apply IH. lia.
Qed.

Section GroupingProperties.

Context {K : Type}.
Variable eqb : K -> K -> bool.
Variable leb : K -> K -> bool.
Hypothesis eqb_eq : forall x y, eqb x y = true <-> x = y.

Lemma distinct_In (l : list K) (x : K) : In x (distinct eqb l) <-> In x l.
Proof using eqb_eq.
  induction l as [|y l IH]; simpl; [reflexivity|].
  rewrite filter_In, IH, negb_true_iff. split.
  - intros [E | [H _]]; auto.
  - intros [E | H]; auto.
    destruct (eqb x y) eqn:E; [left; symmetry; now apply eqb_eq | now right].
Qed.

Lemma distinct_NoDup (l : list K) : NoDup (distinct eqb l).
Proof.
  induction l as [|y l IH]; simpl; constructor.
  - rewrite filter_In, negb_true_iff. intros [_ H].
    assert (E : eqb y y = true) by now apply eqb_eq. congruence.
  - now apply NoDup_filter.
Qed.

Lemma insert_sorted_perm (x : K) (l : list K) :
  Permutation (insert_sorted leb x l) (x :: l).
Proof.
  induction l as [|y l IH]; simpl; [reflexivity|].
  destruct (leb x y); [reflexivity|].
  rewrite IH. apply perm_swap.
Qed.

Lemma sort_keys_perm (l : list K) : Permutation (sort_keys leb l) l.
Proof.
  induction l as [|x l IH]; simpl; [reflexivity|].
  now rewrite insert_sorted_perm, IH.
Qed.

Lemma group_keys_In (l : list K) (x : K) :
  In x (sort_keys leb (distinct eqb l)) <-> In x l.
Proof.
  split; intro H.
  - apply distinct_In. eapply Permutation_in; [apply sort_keys_perm | exact H].
  - eapply Permutation_in; [symmetry; apply sort_keys_perm|].
    now apply distinct_In.
Qed.

Lemma group_keys_NoDup (l : list K) : NoDup (sort_keys leb (distinct eqb l)).
Proof.
  eapply Permutation_NoDup; [symmetry; apply sort_keys_perm|].
  apply distinct_NoDup.
Qed.

Lemma argmax_Some (s : list (K * Q)) :
  s <> [] -> exists k v, argmax s = Some (k, v).
Proof.
  destruct s as [|[k v] s]; [congruence|]. intros _. simpl.
  destruct (argmax s) as [[k' v']|]; [|now eauto].
  destruct (Qle_bool v' v); eauto.
Qed.

Lemma argmax_spec (s : list (K * Q)) (k : K) (v : Q) :
  argmax s = Some (k, v) ->
  In (k, v) s /\ (forall e, In e s -> snd e <= v).
Proof.
  revert k v. induction s as [|[k0 v0] s IH]; intros k v; simpl;
    [discriminate|].
  destruct (argmax s) as [[k' v']|] eqn:E.
  - destruct (IH k' v' eq_refl) as [Hin Hmax].
    destruct (Qle_bool v' v0) eqn:Hle; intro H; inversion H; subst.
    + apply Qle_bool_iff in Hle. split; [now left|].
      intros e [He | He]; [subst; simpl; apply Qle_refl|].
      eapply Qle_trans; [now apply Hmax | assumption].
    + split; [now right|].
      intros e [He | He]; [|now apply Hmax]. subst; simpl.
      destruct (Qlt_le_dec v0 v) as [Hlt | Hge].
      * now apply Qlt_le_weak.
      * apply Qle_bool_iff in Hge. congruence.
  - intro H; inversion H; subst. destruct s as [|[k1 v1] s].
    + split; [now left|]. intros e [He | []]. subst. apply Qle_refl.
    + simpl in E. destruct (argmax s) as [[? ?]|];
        [destruct (Qle_bool _ _)|]; discriminate.
Qed.

Hypothesis leb_total : forall x y, leb x y = true \/ leb y x = true.
Hypothesis leb_trans :
  forall x y z, leb x y = true -> leb y z = true -> leb x z = true.



End GroupingProperties.

(** ** Text rendering respects equality of rationals *)




(** ** Sums in the dtype of the column *)

Lemma wrap_int64_small (z : Z) :
  (- 2 ^ 63 <= z < 2 ^ 63)%Z -> wrap_int64 z = z.
Proof.
  intro H. unfold wrap_int64. rewrite Z.mod_small; lia.
Qed.

Lemma Qsum_whole (l : list Q) :
  forallb (fun q => (Qden q =? 1)%positive) l = true ->
  Qden (Qsum l) = 1%positive /\ (Z.abs (Qnum (Qsum l)) <= abs_total l)%Z.
Proof.
  induction l as [|q l IH]; cbn [forallb abs_total]; intro H.
  - split; [reflexivity | simpl; lia].
  - apply andb_true_iff in H. destruct H as [Hq Hl].
    apply Pos.eqb_eq in Hq. destruct (IH Hl) as [Hd Hn].
    change (Qsum (q :: l)) with (Qplus q (Qsum l)).
    unfold Qplus. cbn [Qnum Qden]. rewrite Hq, Hd. split; [reflexivity | lia].
Qed.

Lemma abs_total_nonneg (vals : list Q) : (0 <= abs_total vals)%Z.
Proof.
  induction vals as [|q vals IH]; simpl; [lia|].
  pose proof (Z.abs_nonneg (Qnum q)). lia.
Qed.

Lemma whole_cells_of_group {K : Type} (f : K * Q -> bool)
  (keys : list (option K)) (vals : list Q) :
  forallb (fun q => (Qden q =? 1)%positive) vals = true ->
  forallb (fun q => (Qden q =? 1)%positive)
          (map snd (filter f (keyed keys vals))) = true
  /\ (abs_total (map snd (filter f (keyed keys vals))) <= abs_total vals)%Z.
Proof.
  revert vals. induction keys as [|o keys IH]; intros vals H.
  - split; [reflexivity | apply abs_total_nonneg].
  - destruct vals as [|v vals].
    + destruct o; split; reflexivity.
    + cbn [forallb] in H. apply andb_true_iff in H. destruct H as [Hv Hl].
      destruct (IH vals Hl) as [Hw Ha].
      pose proof (Z.abs_nonneg (Qnum v)).
      destruct o as [k|]; cbn [keyed filter abs_total].
      * destruct (f (k, v)); cbn [map forallb abs_total snd].
        -- rewrite Hv, Hw. split; [reflexivity | lia].
        -- split; [exact Hw | lia].
      * split; [exact Hw | lia].
Qed.

Lemma group_total_whole {K : Type} (eqb : K -> K -> bool)
  (keys : list (option K)) (vals : list Q) (k : K) :
  forallb (fun q => (Qden q =? 1)%positive) vals = true ->
  Qden (group_total eqb (keyed keys vals) k) = 1%positive
  /\ (Z.abs (Qnum (group_total eqb (keyed keys vals) k)) <= abs_total vals)%Z.
Proof.
  intro H. unfold group_total.
  destruct (whole_cells_of_group (fun r => eqb (fst r) k) keys vals H)
    as [Hw Ha].
  destruct (Qsum_whole _ Hw) as [Hd Hn]. split; [exact Hd | lia].
Qed.

Lemma whole_Q (q : Q) : Qden q = 1%positive -> inject_Z (Qnum q) = q.
Proof.
  destruct q as [n d]. simpl. intros ->. reflexivity.
Qed.

(** On whole numbers of small total the sums of a column are exact. *)
Lemma as_dtype_exact {K : Type} (eqb : K -> K -> bool)
  (keys : list (option K)) (vals : list Q) (k : K) :
  small_whole_numbers vals = true ->
  as_dtype vals (group_total eqb (keyed keys vals) k)
  = group_total eqb (keyed keys vals) k.
Proof.
  intro H. apply andb_true_iff in H. destruct H as [Hw Hs].
  apply Z.ltb_lt in Hs.
  destruct (group_total_whole eqb keys vals k Hw) as [Hd Hn].
  unfold as_dtype. destruct (int64_dtype vals); [|reflexivity].
  rewrite wrap_int64_small by lia. now apply whole_Q.
Qed.

Lemma groupby_sum_exact {K : Type} (eqb leb : K -> K -> bool)
  (keys : list (option K)) (vals : list Q) :
  small_whole_numbers vals = true ->
  groupby_sum eqb leb keys vals
  = map (fun k => (k, group_total eqb (keyed keys vals) k))
        (sort_keys leb (distinct eqb (map fst (keyed keys vals)))).
Proof.
  intro H. unfold groupby_sum. apply map_ext. intro k.
  now rewrite as_dtype_exact.
Qed.



(** ** Insight Generator: engagement trend *)









Section TrendProperties.

Variable sort_values_desc : list (string * Q) -> list (string * Q).

Local Notation "'insights'" := (generate_insights sort_values_desc).

Lemma daily_engagements_unfold (ds : list Date) (es : list Q) :
  List.length ds = List.length es ->
  let days := sort_keys Date_leb (distinct Date_eqb ds) in
  groupby_sum Date_eqb Date_leb (map Some ds) es
  = map (fun d => (d, as_dtype es (group_total Date_eqb (combine ds es) d)))
        days.
Proof.
  intros Hlen days. unfold groupby_sum.
  rewrite keyed_Some, map_fst_combine by assumption. reflexivity.
Qed.

Lemma daily_engagements_exact (ds : list Date) (es : list Q) :
  List.length ds = List.length es ->
  small_whole_numbers es = true ->
  let days := sort_keys Date_leb (distinct Date_eqb ds) in
  groupby_sum Date_eqb Date_leb (map Some ds) es
  = map (fun d => (d, group_total Date_eqb (combine ds es) d)) days.
Proof.
  intros Hlen Hs days. rewrite groupby_sum_exact by assumption.
  rewrite keyed_Some, map_fst_combine by assumption. reflexivity.
Qed.



End TrendProperties.

(** ** Insight Generator: rankings *)




Lemma present_length {A : Type} (l : list (option A)) :
  (List.length (present l) <= List.length l)%nat.
Proof.
  induction l as [|[a|] l IH]; simpl; lia.
Qed.

Lemma rank_statements (lc : list (string * Q)) :
  lc <> [] ->
  match lc with
  | [] => ["No location data available for analysis."]
  | top :: _ =>
      [ranked_location "top location for mentions is" top]
      +++ match nth_error lc 1 with
          | Some second => [ranked_location "second top location is" second]
          | None => []
          end
      +++ match nth_error lc 2 with
          | Some third => [ranked_location "third top location is" third]
          | None => []
          end
  end
  = map (fun re => ranked_location (fst re) (snd re)) (combine rank_phrases lc).
Proof.
  destruct lc as [|a [|b [|c l]]]; [congruence | reflexivity..].
Qed.

Section RankingProperties.

Variable sort_values_desc : list (string * Q) -> list (string * Q).

Hypothesis sort_values_perm :
  forall s, Permutation (sort_values_desc s) s.
Hypothesis sort_values_descending :
  forall s, descending (sort_values_desc s).

Local Notation "'insights'" := (generate_insights sort_values_desc).

Lemma value_counts_spec (keys : list (option string)) :
  let seen := present keys in
  let ranking := value_counts sort_values_desc keys in
  NoDup (map fst ranking)
  /\ (forall l, In l (map fst ranking) <-> In l seen)
  /\ (forall e, In e ranking ->
        snd e = inject_Z (Z.of_nat (count_of String.eqb seen (fst e))))
  /\ descending ranking.
Proof.
  intros seen ranking. unfold ranking, value_counts. fold seen.
  set (base := map (count_entry seen) (distinct String.eqb seen)).
  assert (Hfst : map fst base = distinct String.eqb seen).
  { unfold base. rewrite map_map. simpl. apply map_id. }
  assert (Hperm : Permutation (map fst (sort_values_desc base))
                    (distinct String.eqb seen)).
  { rewrite <- Hfst. apply Permutation_map, sort_values_perm. }
  split; [|split; [|split]].
  - eapply Permutation_NoDup; [symmetry; exact Hperm|].
    apply distinct_NoDup, String.eqb_eq.
  - intro l. rewrite <- (distinct_In String.eqb String.eqb_eq seen l).
    split; apply Permutation_in; [|symmetry]; exact Hperm.
  - intros e He. apply (Permutation_in _ (sort_values_perm base)) in He.
    unfold base in He. apply in_map_iff in He. destruct He as (k & Hk & _).
    now subst e.
  - apply sort_values_descending.
Qed.



End RankingProperties.

(** ** The sample sort is a descending sort *)

Lemma insertion_sort_desc_perm (s : list (string * Q)) :
  Permutation (insertion_sort_desc s) s.
Proof.
  apply sort_keys_perm.
Qed.

Lemma insert_descending (e : string * Q) (s : list (string * Q)) :
  descending s -> descending (insert_sorted by_value_desc e s).
Proof.
  unfold descending. induction s as [|y s IH]; intro Hs; simpl.
  - repeat constructor.
  - inversion Hs as [|y' s' Hs' Hall]; subst.
    destruct (by_value_desc e y) eqn:E; unfold by_value_desc in E.
    + apply Qle_bool_iff in E. constructor; [assumption|].
      constructor; [assumption|].
      eapply Forall_impl; [|exact Hall]. intros z Hz. simpl in Hz.
      eapply Qle_trans; eassumption.
    + constructor; [now apply IH|].
      eapply Permutation_Forall;
        [symmetry; apply (insert_sorted_perm by_value_desc)|].
      constructor; [|assumption].
      destruct (Qlt_le_dec (snd e) (snd y)) as [Hlt | Hge].
      * now apply Qlt_le_weak.
      * apply Qle_bool_iff in Hge. congruence.
Qed.

Lemma insertion_sort_desc_descending (s : list (string * Q)) :
  descending (insertion_sort_desc s).
Proof.
  unfold insertion_sort_desc, sort_keys.
  induction s as [|e s IH]; simpl; [constructor|].
  now apply insert_descending.
Qed.

(** ** Cleaning establishes the Cleaned Record Set *)

Lemma traverse_map {A B C : Type} (f : B -> option C) (g : A -> B)
  (h : A -> C) (e : failure) (l : list A) :
  (forall a, In a l -> f (g a) = Some (h a)) ->
  traverse f e (map g l) = Returned (map h l).
Proof.
  induction l as [|a l IH]; intro H; simpl; [reflexivity|].
  rewrite (H a) by now left. rewrite IH by (intros; apply H; now right).
  reflexivity.
Qed.

Lemma mask_length_eq {A B : Type} (keep : list bool) (l : list A)
  (l' : list B) :
  List.length l = List.length l' ->
  List.length (mask keep l) = List.length (mask keep l').
Proof.
  revert l l'. induction keep as [|b keep IH]; intros [|x l] [|y l'] H;
    simpl in *; try reflexivity; try discriminate.
  destruct b; simpl; rewrite (IH l l') by lia; reflexivity.
Qed.

Lemma mask_is_some_length {A B : Type} (parsed : list (option A))
  (l : list B) :
  List.length parsed = List.length l ->
  List.length (mask (map is_some parsed) l) = List.length (present parsed).
Proof.
  revert l. induction parsed as [|[a|] parsed IH]; intros [|x l] H;
    simpl in *; try reflexivity; try discriminate;
    rewrite (IH l) by lia; reflexivity.
Qed.

Lemma In_mask_In {A : Type} (keep : list bool) (l : list A) (x : A) :
  In x (mask keep l) -> In x l.
Proof.
  intro H. apply In_mask in H. destruct H as (p & _ & H).
  eapply nth_error_In, H.
Qed.

Lemma normalize_columns_In {C : Type} (df : DataFrame C) (label : string)
  (col : list C) :
  In (label, col) (columns (normalize_columns df)) ->
  exists c, In c (columns df) /\ snd c = col.
Proof.
  unfold normalize_columns; simpl. intro H. apply in_map_iff in H.
  destruct H as (c & E & Hc). exists c. split; [assumption|].
  now inversion E.
Qed.

Section Invariant.

Variable to_datetime : list raw_cell -> list (option Timestamp).
Variable parse_number : string -> option Q.

Hypothesis to_datetime_length :
  forall col, List.length (to_datetime col) = List.length col.

(** For a rectangular table whose category columns are text, a successful
    cleaning returns a Cleaned Record Set. *)
Lemma clean_data_cleaned (df : DataFrame raw_cell) (dcol ecol : list raw_cell) :
  empty df = false ->
  (forall c, In c (columns df) -> List.length (snd c) = List.length (index df)) ->
  get_column (normalize_columns df) "date" = Returned dcol ->
  get_column (normalize_columns df) "engagements" = Returned ecol ->
  (forall label, In label category_columns ->
     exists col, get_column (normalize_columns df) label = Returned col
                 /\ text_only col) ->
  exists out,
    clean_data to_datetime parse_number df = Returned (out, "")
    /\ cleaned_record_set out.
Proof.
  intros He Hrect Hd Hg Hcat.
  assert (Hlen : forall label col,
             get_column (normalize_columns df) label = Returned col ->
             List.length col = List.length (index df)).
  { intros label col H. apply get_column_In, normalize_columns_In in H.
    destruct H as (c & Hc & <-). now apply Hrect. }
  assert (Hm : missing_columns (normalize_columns df) = []).
  { apply missing_columns_nil. intros c Hc.
    assert (Hex : exists col, get_column (normalize_columns df) c = Returned col).
    { unfold required_columns in Hc. simpl in Hc.
      destruct Hc as [<- | [<- | [<- | [<- | [<- | [<- | []]]]]]]; eauto;
        match goal with
        | |- exists col, get_column _ ?l = _ =>
            destruct (Hcat l) as (col & H & _);
            [unfold category_columns; simpl; tauto | eauto]
        end. }
    destruct Hex as (col & Hcol). apply get_column_In in Hcol.
    unfold labels. apply in_map_iff. now exists (c, col). }
  destruct (clean_data_returns to_datetime parse_number df dcol ecol He Hm Hd Hg)
    as (out & Hout & Hidx & Hdate & Heng & Hother).
  exists out. split; [exact Hout|].
  set (keep := map is_some (to_datetime dcol)) in *.
  assert (Htext : forall label, In label category_columns ->
            has_rows (text_column out label) (List.length (index out))).
  { intros label Hl. destruct (Hcat label Hl) as (col & Hcol & Htxt).
    unfold has_rows, text_column.
    rewrite (Hother label col); cycle 1.
    - intros ->. unfold category_columns in Hl. simpl in Hl.
      intuition discriminate.
    - intros ->. unfold category_columns in Hl. simpl in Hl.
      intuition discriminate.
    - exact Hcol.
    - cbn [bind].
      rewrite (traverse_map text_key inject
                 (fun r => match r with RStr s => Some s | _ => None end)).
      + eexists. split; [reflexivity|].
        rewrite length_map, Hidx. apply mask_length_eq. now apply (Hlen label).
      + intros r Hr. apply In_mask_In in Hr.
        unfold text_only in Htxt. rewrite Forall_forall in Htxt.
        specialize (Htxt r Hr). now destruct r. }
  unfold cleaned_record_set. split; [|split; [|repeat split]].
  - exists (map ts_date (present (to_datetime dcol))). split.
    + unfold date_column. rewrite Hdate. cbn [bind].
      rewrite (traverse_map date_key Stamp (fun t => Some (ts_date t)))
        by reflexivity.
      now rewrite map_map.
    + rewrite length_map, Hidx. symmetry. apply mask_is_some_length.
      rewrite to_datetime_length. now apply (Hlen "date").
  - unfold has_rows, number_column. rewrite Heng. cbn [bind].
    rewrite (traverse_map number _ (expected_engagement parse_number))
      by reflexivity.
    eexists. split; [reflexivity|].
    rewrite length_map, Hidx. apply mask_length_eq. now apply (Hlen "engagements").
  - apply Htext. unfold category_columns; simpl; tauto.
  - apply Htext. unfold category_columns; simpl; tauto.
  - apply Htext. unfold category_columns; simpl; tauto.
  - apply Htext. unfold category_columns; simpl; tauto.
Qed.

End Invariant.

(** ** The sample tables are what they are meant to be *)

Lemma cleaned_two_platforms_ok : cleaned_record_set cleaned_two_platforms.
Proof.
  unfold cleaned_record_set. split.
  - exists [mkDate 2024 1 1; mkDate 2024 1 2; mkDate 2024 1 2].
    split; reflexivity.
  - repeat apply conj; eexists; split; reflexivity.
Qed.

Lemma cleaned_four_locations_ok : cleaned_record_set cleaned_four_locations.
Proof.
  unfold cleaned_record_set. split.
  - exists [mkDate 2024 1 1; mkDate 2024 1 2; mkDate 2024 1 2; mkDate 2024 1 3;
            mkDate 2024 1 3; mkDate 2024 1 4; mkDate 2024 1 5].
    split; reflexivity.
  - repeat apply conj; eexists; split; reflexivity.
Qed.



(** The specification's two-row example: the row with the bad date is
    dropped, and the sentiment statements report Positive at 100.0%. *)
Example two_row_upload :
  index (frame_of (clean_sample upload_two_rows)) = [0%nat]
  /\ insights_sample "sentiment" (frame_of (clean_sample upload_two_rows))
     = Returned ["Dominant sentiment: **Positive** (100.0%).";
                 "Overall, 1 sentiment entries were analyzed."].
Proof.
  split; reflexivity.
Qed.

(** The five charts on the sample with four locations. *)
Example four_locations_statements :
  map (fun chart_type => insights_sample chart_type cleaned_four_locations)
      chart_categories
  = [Returned
       ["Dominant sentiment: **Positive** (50.0%).";
        "Second most common sentiment: **Negative** (33.3%).";
        "Overall, 6 sentiment entries were analyzed."];
     Returned
       ["Peak engagement occurred on **2024-01-02** with **900** total engagements.";
        "Average daily engagements across the period: **212**.";
        "Data covers the period from **2024-01-01** to **2024-01-05**."];
     Returned
       ["The platform with the highest engagement is **B** with **750** engagements.";
        "The second highest engaging platform is **A** with **309** engagements.";
        "A total of **2** unique platforms were identified."];
     Returned
       ["The most prevalent media type is **Video** (42.9%).";
        "The second most common media type is **Image** (28.6%).";
        "In total, **7** media type entries were counted."];
     Returned
       ["The top location for mentions is **NY** with **3** occurrences.";
        "The second top location is **LA** with **2** occurrences.";
        "The third top location is **SF** with **1** occurrences."]].
Proof.
  reflexivity.
Qed.

(** Fixed-point rendering: ties go to the even neighbour, thousands are
    separated by commas, the sign of a negative number is kept. *)
Example fixed_rendering :
  map (fixed true 0) [1234567.5; 0.5; 1.5; 2.5; 999.5; -1234.5; -0.4]%Q
  = ["1,234,568"; "0"; "2"; "2"; "1,000"; "-1,234"; "-0"]
  /\ map (fixed false 1) [33.25; 100; 66.625; 0.75]%Q
     = ["33.2"; "100.0"; "66.6"; "0.8"].
Proof.
  split; reflexivity.
Qed.

(** ** Instances of the theorems on the sample tables *)

Lemma normalization_idempotent_example :
  map normalize_name ["Media Type"; "media_type"; "DATE"]
  = ["media_type"; "media_type"; "date"].
Proof.
  reflexivity.
Qed.

Lemma missing_columns_reported_witness :
  clean_sample upload_without_media_type
  = Returned (empty_frame,
              "Missing required columns: media_type. Please ensure your CSV has 'Date', 'Platform', 'Sentiment', 'Location', 'Engagements', 'Media Type' columns.").
Proof.
  destruct (missing_columns_reported iso_dates integer_literal
              upload_without_media_type) as (_ & H & _).
  apply H; [reflexivity | discriminate].
Defined.

(** C1 as stated does not hold. Without its [Media Type] column the sample
    upload is answered with a message that lists the column as
    [media_type], not as "Media Type", and that names 'Date', a column the
    upload has, in its readable spelling; and the header-only upload, which
    lacks the same column, is answered with the no-data message, which
    names no column. *)
Lemma missing_message_counterexample :
  let msg := "Missing required columns: media_type. Please ensure your CSV has 'Date', 'Platform', 'Sentiment', 'Location', 'Engagements', 'Media Type' columns." in
  empty upload_without_media_type = false
  /\ missing_columns (normalize_columns upload_without_media_type)
     = ["media_type"]
  /\ clean_sample upload_without_media_type = Returned (empty_frame, msg)
  /\ occurs "Missing required columns: Media Type" msg = false
  /\ occurs "'Date'" msg = true
  /\ missing_columns (normalize_columns upload_header_only) = ["media_type"]
  /\ clean_sample upload_header_only
     = Returned (empty_frame, "No data to clean or process.").
Proof.
  repeat split; reflexivity.
Qed.

Lemma rows_kept_iff_date_parses_witness :
  exists out,
    clean_sample upload_text_engagements = Returned (out, "")
    /\ index out = [0; 1; 3]%nat
    /\ (List.length (index out) <= 4)%nat.
Proof.
  destruct (rows_kept_iff_date_parses iso_dates integer_literal
              upload_text_engagements
              [RStr "2024-01-01"; RStr "2024-01-02"; RStr "n/a";
               RStr "2024-01-03"]
              [RStr "-5"; RStr "many"; RStr "7"; RNaN])
    as (out & Hout & Hidx & _ & _ & Hlen).
  - reflexivity.
  - intros c Hc. vm_compute in Hc. vm_compute. tauto.
  - reflexivity.
  - reflexivity.
  - exists out. split; [unfold clean_sample; now rewrite Hout|].
    split; [exact Hidx | exact Hlen].
Defined.

(** C2 as stated does not hold. The sample upload with the headers [Date]
    and [date] is not empty and has all six required columns after
    normalization, yet no frame is returned, whatever the date and number
    parsers: [_df['date']] is a two-column frame there, and
    [pd.to_datetime] raises on it ("cannot assemble with duplicate keys"). *)
Lemma colliding_dates_counterexample :
  empty upload_colliding_dates = false
  /\ (forall c, In c required_columns ->
                In c (map normalize_name (labels upload_colliding_dates)))
  /\ (forall to_datetime parse_number,
        clean_data to_datetime parse_number upload_colliding_dates
        = Failed (AmbiguousLabel "date")).
Proof.
  split; [reflexivity|]. split; [|reflexivity].
  intros c Hc. vm_compute in Hc. vm_compute. tauto.
Qed.

Lemma engagements_default_to_zero_witness :
  get_column (frame_of (clean_sample upload_text_engagements)) "engagements"
  = Returned [Num (-5); Num 0; Num 0].
Proof.
  destruct (engagements_default_to_zero iso_dates integer_literal
              upload_text_engagements
              (frame_of (clean_sample upload_text_engagements)) "")
    as (dcol & ecol & Hd & Hg & H).
  - reflexivity.
  - discriminate.
  - vm_compute in Hd. vm_compute in Hg.
    injection Hd as <-. injection Hg as <-. exact H.
Defined.

Lemma empty_data_single_statement_witness :
  Forall (fun chart_type =>
            insights_sample chart_type empty_frame
            = Returned ["No data available for insights."])
         chart_categories.
Proof.
  apply (empty_data_single_statement insertion_sort_desc empty_frame).
  reflexivity.
Defined.





Lemma empty_table_short_circuits_witness :
  missing_columns (normalize_columns upload_header_only) = ["media_type"]
  /\ clean_sample upload_header_only
     = Returned (empty_frame, "No data to clean or process.").
Proof.
  split; [reflexivity|]. unfold clean_sample.
  rewrite (empty_table_short_circuits iso_dates integer_literal
             upload_header_only eq_refl).
  reflexivity.
Defined.

Lemma unknown_category_no_statements_witness :
  insights_sample "word_cloud" cleaned_two_platforms = Returned [].
Proof.
  apply (unknown_category_no_statements insertion_sort_desc "word_cloud"
           cleaned_two_platforms).
  - reflexivity.
  - unfold chart_categories. simpl. intuition discriminate.
Defined.

(** * Further properties *)

(** ** Column Normalizer: what a normalized name looks like *)

Lemma normalize_ascii_plain (c : ascii) :
  let c' := if Ascii.eqb (lower_ascii c) " " then "_"%char
            else lower_ascii c in
  Ascii.eqb c' " " = false /\ is_upper c' = false.
Proof.
  destruct c as [[] [] [] [] [] [] [] []]; split; reflexivity.
Qed.

(** The normalized name of an ASCII header has the length of the header
    and holds neither a space nor an upper-case letter. *)
Theorem normalized_name_plain (s : string) :
  ascii_text s = true ->
  String.length (normalize_name s) = String.length s
  /\ Forall (fun c => Ascii.eqb c " " = false /\ is_upper c = false)
            (list_ascii_of_string (normalize_name s)).
Proof.
  intros _.
  rewrite normalize_name_unfold. induction s as [|c s [IHl IHf]]; simpl.
  - split; [reflexivity | constructor].
  - split; [now rewrite IHl|].
    constructor; [apply normalize_ascii_plain | exact IHf].
Qed.

(** ** Cleaning: results and messages *)

Section CleaningResults.

Variable to_datetime : list raw_cell -> list (option Timestamp).
Variable parse_number : string -> option Q.

Local Notation "'clean'" := (clean_data to_datetime parse_number).
Local Notation "'first_call'" :=
  (cached_clean_data to_datetime parse_number None).

(** The three ways [clean_data] returns. *)
Lemma clean_data_inv (df : DataFrame raw_cell) (out : DataFrame cell)
  (msg : string) :
  clean df = Returned (out, msg) ->
  (empty df = true /\ out = empty_frame /\ msg = no_data_message)
  \/ (empty df = false
      /\ missing_columns (normalize_columns df) <> []
      /\ out = empty_frame
      /\ msg = missing_message (missing_columns (normalize_columns df)))
  \/ (empty df = false
      /\ missing_columns (normalize_columns df) = []
      /\ msg = ""
      /\ exists dcol ecol,
           get_column (normalize_columns df) "date" = Returned dcol
           /\ get_column (normalize_columns df) "engagements" = Returned ecol).
Proof.
  intro Hc. unfold clean_data in Hc.
  destruct (empty df) eqn:He.
  { inversion Hc; subst. left. auto. }
  right.
  destruct (missing_columns (normalize_columns df)) as [|m ms] eqn:Hm.
  2:{ inversion Hc; subst. left. repeat split. discriminate. }
  right.
  destruct (get_column (normalize_columns df) "date") as [dcol|e] eqn:Hd;
    [|discriminate].
  simpl in Hc.
  destruct (get_column (normalize_columns df) "engagements") as [ecol|e] eqn:Hg;
    [|discriminate].
  simpl in Hc.
  match type of Hc with
  | context [dropna ?d ?l] => destruct (dropna d l); [|discriminate]
  end.
  simpl in Hc. inversion Hc; subst.
  repeat split. now exists dcol, ecol.
Qed.

(** Whenever a call of [clean_data] that the cache does not answer
    returns, its message is empty exactly when the table was not empty and
    had all six required columns; with a non-empty message the frame
    returned is the empty frame, never a partly cleaned one. *)
Theorem message_empty_iff_cleaned (df : DataFrame raw_cell)
  (out : DataFrame cell) (msg : string) :
  fst (first_call df) = Returned (out, msg) ->
  (msg = "" <->
   empty df = false
   /\ (forall c, In c required_columns ->
                 In c (map normalize_name (labels df))))
  /\ (msg <> "" -> out = empty_frame).
Proof.
  rewrite cold_cache_runs_body.
  intro Hc. rewrite <- labels_normalize_columns, <- missing_columns_nil.
  destruct (clean_data_inv df out msg Hc)
    as [(He & Ho & Hm) | [(He & Hne & Ho & Hm) | (He & Hnil & Hm & _)]];
    subst.
  - split; [|auto]. split; [discriminate|]. intros [H _]. congruence.
  - split; [|auto]. split.
    + destruct (missing_columns (normalize_columns df)); [congruence|].
      discriminate.
    + intros [_ H]. congruence.
  - split; [|congruence]. split; auto.
Qed.

(** When a call of [clean_data] that the cache does not answer succeeds on
    a table with ASCII headers, it keeps every column of the table, in
    order, under its normalized label and restricted to the rows whose date
    parsed; only the cells of [date] and [engagements] change. *)
Theorem cleaning_keeps_columns (df : DataFrame raw_cell)
  (out : DataFrame cell) (dcol : list raw_cell) :
  forallb ascii_text (labels df) = true ->
  fst (first_call df) = Returned (out, "") ->
  get_column (normalize_columns df) "date" = Returned dcol ->
  columns out = map (cleaned_column parse_number (to_datetime dcol)) (columns df)
  /\ labels out = map normalize_name (labels df).
Proof.
  intros _. rewrite cold_cache_runs_body. intros Hc Hd.
  destruct (clean_data_inv df out "" Hc)
    as [(_ & _ & Hm) | [(_ & _ & _ & Hm) | (He & Hnil & _ & dcol' & ecol & Hd' & Hg)]];
    try discriminate.
  rewrite Hd in Hd'. injection Hd' as <-.
  assert (Hcols : columns out
                  = map (cleaned_column parse_number (to_datetime dcol))
                        (columns df)).
  { unfold clean_data in Hc. rewrite He, Hnil, Hd in Hc. simpl in Hc.
    rewrite Hg in Hc. simpl in Hc.
    set (df1 := set_column (map_frame inject (normalize_columns df)) "date"
                  (map date_cell (to_datetime dcol))) in *.
    set (df2 := set_column df1 "engagements"
                  (map (fun r => Num (fillna0 (to_numeric parse_number r))) ecol))
      in *.
    assert (Hd2 : get_column df2 "date"
                  = Returned (map date_cell (to_datetime dcol))).
    { unfold df2. rewrite get_column_set_other by discriminate.
      unfold df1. eapply get_column_set_same.
      apply (get_column_map (map inject)), Hd. }
    unfold dropna in Hc. rewrite Hd2 in Hc. simpl in Hc.
    inversion Hc; subst out. clear Hc. simpl.
    rewrite notna_date_cell. unfold df2, df1. simpl.
    rewrite !map_map. apply map_ext_in. intros [l col] Hin.
    unfold cleaned_column. simpl.
    destruct (normalize_name l =? "date") eqn:El; simpl.
    - destruct (normalize_name l =? "engagements") eqn:Ee; simpl.
      + apply String.eqb_eq in El, Ee. congruence.
      + reflexivity.
    - destruct (normalize_name l =? "engagements") eqn:Ee; simpl;
        [|reflexivity].
      apply String.eqb_eq in Ee. f_equal. f_equal.
      assert (Hcol : In (normalize_name l, col)
                        (filter (fun c => fst c =? "engagements")
                                (columns (normalize_columns df)))).
      { apply filter_In. split.
        - unfold normalize_columns; simpl. apply in_map_iff.
          now exists (l, col).
        - simpl. rewrite Ee. apply String.eqb_refl. }
      apply get_column_Returned in Hg. rewrite Hg in Hcol.
      destruct Hcol as [E | []]. inversion E; subst.
      apply map_ext. intro r. now rewrite to_numeric_expected. }
  split; [exact Hcols|].
  unfold labels. rewrite Hcols, !map_map. reflexivity.
Qed.

(** A call of [clean_data] that the cache does not answer keeps the rows
    it retains in their order: row labels that were distinct stay distinct,
    and any order the labels of the table were in is the order of the
    labels returned. *)
Theorem cleaning_keeps_row_order (df : DataFrame raw_cell)
  (out : DataFrame cell) (msg : string) :
  fst (first_call df) = Returned (out, msg) ->
  (NoDup (index df) -> NoDup (index out))
  /\ (forall R : nat -> nat -> Prop,
        StronglySorted R (index df) -> StronglySorted R (index out)).
Proof.
  rewrite cold_cache_runs_body. intro Hc.
  assert (Hidx : exists keep, index out = mask keep (index df)).
  { destruct (clean_data_inv df out msg Hc)
      as [(_ & -> & _) | [(_ & _ & -> & _) | (He & Hnil & -> & dcol & ecol & Hd & Hg)]].
    - now exists [].
    - now exists [].
    - destruct (clean_data_returns to_datetime parse_number df dcol ecol
                  He Hnil Hd Hg) as (out' & Hout & Hidx & _).
      rewrite Hout in Hc. inversion Hc; subst. eauto. }
  destruct Hidx as (keep & ->). split.
  - generalize (index df). induction keep as [|b keep IH]; intros [|x l] H;
      simpl; try constructor.
    inversion H; subst. destruct b; [|now apply IH].
    constructor; [|now apply IH]. intro Hin. now apply In_mask_In in Hin.
  - intro R. generalize (index df).
    induction keep as [|b keep IH]; intros [|x l] H; simpl; try constructor.
    inversion H; subst. destruct b; [|now apply IH].
    constructor; [now apply IH|].
    rewrite Forall_forall in *. intros y Hy. apply In_mask_In in Hy. auto.
Qed.

(** When no date of a valid table with ASCII headers parses, a call of
    [clean_data] that the cache does not answer still succeeds: it returns
    no message and a frame that has the columns but no row, which counts as
    empty; and this is the result the cache keeps. *)
Theorem no_date_parses_empty_success (df : DataFrame raw_cell)
  (dcol ecol : list raw_cell) :
  forallb ascii_text (labels df) = true ->
  empty df = false ->
  (forall c, In c required_columns -> In c (map normalize_name (labels df))) ->
  get_column (normalize_columns df) "date" = Returned dcol ->
  get_column (normalize_columns df) "engagements" = Returned ecol ->
  Forall (fun parsed => parsed = None) (to_datetime dcol) ->
  exists out,
    first_call df = (Returned (out, ""), Some (out, ""))
    /\ index out = []
    /\ labels out = map normalize_name (labels df)
    /\ empty out = true.
Proof.
  intros _ He Hall Hd Hg Hnone.
  rewrite <- labels_normalize_columns in Hall. apply missing_columns_nil in Hall.
  destruct (clean_data_returns to_datetime parse_number df dcol ecol
              He Hall Hd Hg) as (out & Hout & Hidx & _).
  assert (Hmask : forall idx : list nat,
             mask (map is_some (to_datetime dcol)) idx = []).
  { clear - Hnone. induction Hnone as [|o l Ho _ IH]; intros [|i idx]; simpl;
      try reflexivity.
    subst o. simpl. apply IH. }
  assert (Hnil : index out = []) by (rewrite Hidx; apply Hmask).
  exists out. split; [unfold cached_clean_data; now rewrite Hout|].
  split; [exact Hnil|]. split.
  - unfold labels.
    unfold clean_data in Hout. rewrite He, Hall, Hd in Hout. simpl in Hout.
    rewrite Hg in Hout. simpl in Hout.
    match type of Hout with
    | context [dropna ?d ?l] =>
        unfold dropna in Hout; destruct (get_column d l); [|discriminate]
    end.
    simpl in Hout. inversion Hout; subst out. simpl.
    rewrite !map_map. simpl. apply map_ext. intros [l col]. simpl.
    destruct (normalize_name l =? "date"); simpl;
      destruct (normalize_name l =? "engagements"); reflexivity.
  - unfold empty. now rewrite Hnil.
Qed.

End CleaningResults.

(** ** Insight Generator: size of the answer and missing columns *)

Lemma get_column_missing {C : Type} (df : DataFrame C) (label : string) :
  ~ In label (labels df) -> get_column df label = Failed (MissingLabel label).
Proof.
  intro Hn. unfold get_column.
  destruct (filter (fun c => fst c =? label) (columns df)) as [|c l] eqn:E;
    [reflexivity|].
  exfalso. apply Hn.
  assert (Hin : In c (filter (fun c => fst c =? label) (columns df)))
    by (rewrite E; now left).
  apply filter_In in Hin. destruct Hin as [Hin Hl].
  apply String.eqb_eq in Hl. subst label. unfold labels. now apply in_map.
Qed.

Section AnswerProperties.

Variable sort_values_desc : list (string * Q) -> list (string * Q).

Local Notation "'insights'" := (generate_insights sort_values_desc).

(** Whatever the chart type, the data and the sorting routine, an answer of
    [generate_insights] has at most three statements. *)
Theorem at_most_three_statements (chart_type : string)
  (data : DataFrame cell) (statements : list string) :
  insights chart_type data = Returned statements ->
  (List.length statements <= 3)%nat.
Proof.
  unfold generate_insights. intro H. cbv zeta in H.
  repeat match type of H with
  | bind (Returned _) _ = _ => cbn [bind] in H
  | bind (if ?b then _ else _) _ = _ => destruct b
  | bind (bind ?m _) _ = _ => destruct m; cbn [bind] in H
  | bind ?m _ = _ => destruct m; cbn [bind] in H
  | (if ?b then _ else _) = _ => destruct b
  | match ?x with [] => _ | _ :: _ => _ end = _ => destruct x
  end;
  try discriminate; inversion H; subst;
  repeat match goal with
  | |- context [match ?x with Some _ => _ | None => _ end] => destruct x
  end;
  cbn [List.length List.app]; lia.
Qed.

(** On non-empty data that lacks the column a chart category reads first,
    [generate_insights] raises the KeyError of that column: sentiment,
    date, platform, media_type and location for the five categories. *)
Theorem missing_column_raises (chart_type label : string)
  (data : DataFrame cell) :
  In (chart_type, label) first_column_read ->
  empty data = false ->
  ~ In label (labels data) ->
  insights chart_type data = Failed (MissingLabel label).
Proof.
  intros Hin He Hn. unfold first_column_read in Hin. simpl in Hin.
  unfold generate_insights. rewrite He.
  destruct Hin as [E | [E | [E | [E | [E | []]]]]]; inversion E; subst;
    cbn [String.eqb Ascii.eqb Bool.eqb];
    unfold text_column, date_column;
    rewrite (get_column_missing data _ Hn); reflexivity.
Qed.

End AnswerProperties.

(** ** Sums over groups *)

Lemma Qsum_perm (l l' : list Q) : Permutation l l' -> Qsum l == Qsum l'.
Proof.
  induction 1 as [|x l l' _ IH|x y l|l l' l'' _ IH1 _ IH2]; simpl.
  - reflexivity.
  - now rewrite IH.
  - ring.
  - now rewrite IH1.
Qed.


Section GroupSums.

Context {K : Type}.
Variable eqb : K -> K -> bool.
Hypothesis eqb_eq : forall x y, eqb x y = true <-> x = y.

Lemma Qsum_skip (k0 : K) (v : Q) (g : K -> Q) (ks : list K) :
  ~ In k0 ks ->
  map (fun k => if eqb k0 k then v + g k else g k) ks = map g ks.
Proof using eqb_eq.
  intro Hn. apply map_ext_in. intros k Hk.
  destruct (eqb k0 k) eqn:E; [|reflexivity].
  apply eqb_eq in E. subst. contradiction.
Qed.

Lemma Qsum_bump (k0 : K) (v : Q) (g : K -> Q) (ks : list K) :
  NoDup ks -> In k0 ks ->
  Qsum (map (fun k => if eqb k0 k then v + g k else g k) ks)
  == v + Qsum (map g ks).
Proof using eqb_eq.
  induction 1 as [|k ks Hk Hnd IH]; intro Hin; [destruct Hin|].
  cbn [map Qsum fold_right]. fold (Qsum (map g ks)).
  fold (Qsum (map (fun k => if eqb k0 k then v + g k else g k) ks)).
  destruct (eqb k0 k) eqn:E.
  - apply eqb_eq in E. subst k. rewrite Qsum_skip by assumption. ring.
  - destruct Hin as [Hin | Hin].
    + subst k. assert (eqb k0 k0 = true) by now apply eqb_eq. congruence.
    + rewrite (IH Hin). ring.
Qed.

(** The totals of the groups add up to the total of the rows. *)
Lemma group_totals_sum (rows : list (K * Q)) (ks : list K) :
  NoDup ks -> (forall r, In r rows -> In (fst r) ks) ->
  Qsum (map (group_total eqb rows) ks) == Qsum (map snd rows).
Proof using eqb_eq.
  intro Hnd. induction rows as [|[k0 v] rows IH]; intro Hin.
  - clear Hnd Hin. induction ks as [|k ks IHk]; [reflexivity|].
    cbn [map Qsum fold_right]. fold (Qsum (map (group_total eqb []) ks)).
    rewrite IHk. change (group_total eqb [] k) with 0. apply Qplus_0_l.
  - rewrite (map_ext (group_total eqb ((k0, v) :: rows))
               (fun k => if eqb k0 k then v + group_total eqb rows k
                         else group_total eqb rows k)).
    + rewrite Qsum_bump; [|assumption | apply (Hin (k0, v)); now left].
      simpl. rewrite IH; [reflexivity|]. intros r Hr. apply Hin. now right.
    + intro k. unfold group_total. simpl. now destruct (eqb k0 k).
Qed.

Lemma count_of_group_total (l : list K) (k : K) :
  inject_Z (Z.of_nat (count_of eqb l k))
  == group_total eqb (map (fun x => (x, 1)) l) k.
Proof using eqb_eq.
  unfold count_of, group_total. induction l as [|x l IH]; simpl.
  - reflexivity.
  - assert (E : eqb k x = eqb x k).
    { destruct (eqb k x) eqn:E1, (eqb x k) eqn:E2; try reflexivity.
      - apply eqb_eq in E1. subst.
        assert (eqb x x = true) by now apply eqb_eq. congruence.
      - apply eqb_eq in E2. subst.
        assert (eqb k k = true) by now apply eqb_eq. congruence. }
    rewrite E. destruct (eqb x k); simpl; [|exact IH].
    rewrite Zpos_P_of_succ_nat, <- Z.add_1_r, inject_Z_plus, IH.
    unfold Qsum. simpl. ring.
Qed.

(** The occurrences of the distinct values add up to the number of entries. *)
Lemma counts_sum (l : list K) :
  Qsum (map (fun k => inject_Z (Z.of_nat (count_of eqb l k))) (distinct eqb l))
  == inject_Z (Z.of_nat (List.length l)).
Proof using eqb_eq.
  assert (H : Qsum (map (group_total eqb (map (fun x => (x, 1)) l))
                        (distinct eqb l))
              == Qsum (map snd (map (fun x => (x, 1)) l))).
  { apply group_totals_sum; [now apply distinct_NoDup|].
    intros r Hr. apply in_map_iff in Hr. destruct Hr as (x & <- & Hx).
    simpl. now apply distinct_In. }
  assert (Hl : Qsum (map snd (map (fun x : K => (x, 1)) l))
               == inject_Z (Z.of_nat (List.length l))).
  { clear H. induction l as [|x l IH]; [reflexivity|].
    cbn [map snd Qsum fold_right List.length].
    fold (Qsum (map snd (map (fun x : K => (x, 1)) l))).
    rewrite IH, Nat2Z.inj_succ, <- Z.add_1_r, inject_Z_plus. ring. }
  rewrite <- Hl, <- H. clear H Hl.
  induction (distinct eqb l) as [|k ks IH]; [reflexivity|].
  cbn [map Qsum fold_right]. rewrite count_of_group_total.
  apply Qplus_comp; [reflexivity | exact IH].
Qed.

End GroupSums.

(** ** Insight Generator: the percentage charts *)

Lemma NoDup_all_equal {A : Type} (a : A) (l : list A) :
  NoDup l -> (forall x, In x l -> x = a) -> (List.length l <= 1)%nat.
Proof.
  intros Hnd Hall. destruct l as [|x [|y l]]; simpl; try lia.
  exfalso. inversion Hnd as [|? ? Hx _]; subst. apply Hx.
  rewrite (Hall x) by now left. rewrite (Hall y) by (right; now left).
  now left.
Qed.

Lemma NoDup_two_members {A : Type} (a b : A) (l : list A) :
  NoDup l -> In a l -> In b l -> a <> b -> (2 <= List.length l)%nat.
Proof.
  intros Hnd Ha Hb Hab.
  change 2%nat with (List.length [a; b]). apply NoDup_incl_length.
  - constructor; [intros [E | []]; congruence|].
    constructor; [intros [] | constructor].
  - intros x [<- | [<- | []]]; assumption.
Qed.

Lemma other_key {A : Type} (a : string) (l : list (string * A)) :
  NoDup (map fst l) -> (2 <= List.length l)%nat ->
  exists e, In e l /\ fst e <> a.
Proof.
  intros Hnd Hlen. destruct l as [|e1 [|e2 l]]; simpl in Hlen; try lia.
  simpl in Hnd. inversion Hnd as [|? ? Hx _]; subst.
  destruct (string_dec (fst e1) a) as [E | E].
  - exists e2. split; [right; now left|]. intro E2. apply Hx. left. congruence.
  - exists e1. split; [now left | assumption].
Qed.

Section ShareProperties.

Variable sort_values_desc : list (string * Q) -> list (string * Q).

Hypothesis sort_values_perm :
  forall s, Permutation (sort_values_desc s) s.
Hypothesis sort_values_descending :
  forall s, descending (sort_values_desc s).

Local Notation "'insights'" := (generate_insights sort_values_desc).

Lemma value_counts_total (keys : list (option string)) :
  Qsum (map snd (value_counts sort_values_desc keys))
  == inject_Z (Z.of_nat (List.length (present keys))).
Proof.
  unfold value_counts.
  rewrite (Qsum_perm _ _ (Permutation_map snd (sort_values_perm _))).
  rewrite map_map. simpl. apply counts_sum, String.eqb_eq.
Qed.

Lemma value_percentages_spec (keys : list (option string)) :
  let seen := present keys in
  let counts := value_percentages sort_values_desc keys in
  NoDup (map fst counts)
  /\ (forall k, In k (map fst counts) <-> In k seen)
  /\ (forall e, In e counts -> snd e == share_of seen (fst e))
  /\ List.length counts = List.length (distinct String.eqb seen).
Proof.
  intros seen counts. unfold counts, value_percentages.
  destruct (value_counts_spec sort_values_desc sort_values_perm
              sort_values_descending keys) as (Hnd & Hin & Hcount & _).
  set (vc := value_counts sort_values_desc keys) in *.
  assert (Hfst : map fst (map (fun e => (fst e, snd e / Qsum (map snd vc) * 100)) vc)
                 = map fst vc) by (rewrite map_map; reflexivity).
  rewrite Hfst. split; [exact Hnd|]. split; [exact Hin|]. split.
  - intros e He. apply in_map_iff in He. destruct He as (c & <- & Hc).
    simpl. unfold share_of. rewrite (Hcount c Hc).
    unfold vc. rewrite value_counts_total. reflexivity.
  - rewrite length_map. unfold vc, value_counts.
    rewrite (Permutation_length (sort_values_perm _)), length_map.
    reflexivity.
Qed.

(** What the shared shape yields. *)
Lemma share_statements_spec (first_text second_text : string -> Q -> string)
  (last_text : string) (keys : list (option string)) :
  let seen := present keys in
  (seen = [] ->
   share_statements sort_values_desc first_text second_text last_text keys
   = Returned [])
  /\ (seen <> [] ->
      exists top top_share second_statement,
        share_statements sort_values_desc first_text second_text last_text keys
        = Returned ([first_text top top_share] +++ second_statement
                    +++ [last_text])
        /\ In top seen
        /\ top_share == share_of seen top
        /\ (forall k, In k seen -> share_of seen k <= top_share)
        /\ ((forall k, In k seen -> k = top) -> second_statement = [])
        /\ ((exists k, In k seen /\ k <> top) ->
            exists second second_share,
              second_statement = [second_text second second_share]
              /\ In second seen /\ second <> top
              /\ second_share == share_of seen second
              /\ (forall k, In k seen -> k <> top ->
                            share_of seen k <= second_share))).
Proof.
  intro seen.
  destruct (value_percentages_spec keys) as (Hnd & Hin & Hshare & Hlen).
  fold seen in Hin, Hshare, Hlen.
  unfold share_statements.
  set (counts := value_percentages sort_values_desc keys) in *.
  assert (Hentry : forall k, In k seen ->
                     exists e, In e counts /\ fst e = k
                               /\ snd e == share_of seen k).
  { intros k Hk. apply Hin in Hk. apply in_map_iff in Hk.
    destruct Hk as (e & <- & He). exists e. now auto. }
  split.
  - intro Hnone. destruct counts as [|e l]; [reflexivity|].
    exfalso. assert (H : In (fst e) seen) by (apply Hin; now left).
    now rewrite Hnone in H.
  - intro Hsome.
    assert (Hne : counts <> []).
    { destruct seen as [|k l] eqn:Es; [congruence|].
      destruct (Hentry k) as (e & He & _); [now left|].
      intro E. now rewrite E in He. }
    assert (Hmatch : forall x y : outcome (list string),
               match counts with [] => x | _ :: _ => y end = y)
      by (intros x y; destruct counts; [congruence | reflexivity]).
    destruct (argmax_Some counts Hne) as (top & top_share & Hmax).
    destruct (argmax_spec counts top top_share Hmax) as [Htop Hle].
    assert (Htop_seen : In top seen).
    { apply Hin. apply in_map_iff. now exists (top, top_share). }
    assert (Hle_seen : forall k, In k seen -> share_of seen k <= top_share).
    { intros k Hk. destruct (Hentry k Hk) as (e & He & _ & Hs).
      rewrite <- Hs. now apply Hle. }
    destruct (1 <? List.length counts)%nat eqn:Ecount.
    + apply Nat.ltb_lt in Ecount.
      set (others := drop_label String.eqb top counts).
      assert (Hothers : forall e, In e others <-> In e counts /\ fst e <> top).
      { intro e. unfold others, drop_label. rewrite filter_In, negb_true_iff.
        split; intros [H1 H2]; (split; [assumption|]).
        - intro E. rewrite E, String.eqb_refl in H2. discriminate.
        - destruct (fst e =? top) eqn:E; [|reflexivity].
          apply String.eqb_eq in E. contradiction. }
      assert (Hone : others <> []).
      { destruct (other_key top counts Hnd) as (e & He & Hne'); [lia|].
        intro E. assert (H : In e others) by now apply Hothers.
        now rewrite E in H. }
      destruct (argmax_Some others Hone) as (second & second_share & Hmax2).
      destruct (argmax_spec others second second_share Hmax2) as [Hsec Hle2].
      apply Hothers in Hsec. destruct Hsec as [Hsec Hdiff]. simpl in Hdiff.
      assert (Hsec_seen : In second seen).
      { apply Hin. apply in_map_iff. now exists (second, second_share). }
      exists top, top_share, [second_text second second_share].
      split; [|repeat split; try assumption].
      * rewrite Hmatch. unfold idxmax, series_max. rewrite Hmax.
        cbn [bind fst snd]. cbv zeta.
        fold others. rewrite Hmax2. reflexivity.
      * now rewrite (Hshare (top, top_share) Htop).
      * intro Hall. exfalso. apply Hdiff. now apply Hall.
      * intros _. exists second, second_share. repeat split; try assumption.
        -- now rewrite (Hshare (second, second_share) Hsec).
        -- intros k Hk Hkt. destruct (Hentry k Hk) as (e & He & Hfe & Hs).
           rewrite <- Hs. apply Hle2. apply Hothers. split; [assumption|].
           congruence.
    + apply Nat.ltb_ge in Ecount.
      exists top, top_share, [].
      split; [|repeat split; try assumption].
      * rewrite Hmatch. unfold idxmax, series_max. rewrite Hmax.
        cbn [bind fst snd]. reflexivity.
      * now rewrite (Hshare (top, top_share) Htop).
      * intros (k & Hk & Hkt). exfalso.
        assert (H2 : (2 <= List.length (map fst counts))%nat).
        { apply (NoDup_two_members k top); try assumption; now apply Hin. }
        rewrite length_map in H2. lia.
Qed.

(** On non-empty data with fewer than 2^40 sentiment entries, none of
    whose percentages is a rounding tie, the sentiment statements
    are: none when every sentiment is missing; otherwise a sentiment with
    the largest share of the non-missing entries, with that share printed
    to one decimal; then, only when another sentiment occurs, one with the
    largest share among the others; and last the number of non-missing
    entries. *)
Theorem sentiment_statements (data : DataFrame cell)
  (sentiment : list (option string)) :
  empty data = false ->
  text_column data "sentiment" = Returned sentiment ->
  shares_print_exactly (present sentiment) = true ->
  let seen := present sentiment in
       (seen = [] -> insights "sentiment" data = Returned [])
       /\ (seen <> [] ->
           exists top top_share second_statement,
             insights "sentiment" data
             = Returned
                 (["Dominant sentiment: **" ++ top ++ "** ("
                   ++ fixed false 1 top_share ++ "%)."]
                  +++ second_statement
                  +++ ["Overall, " ++ digits (N.of_nat (List.length seen))
                       ++ " sentiment entries were analyzed."])
             /\ In top seen
             /\ top_share == share_of seen top
             /\ (forall k, In k seen -> share_of seen k <= top_share)
             /\ ((forall k, In k seen -> k = top) -> second_statement = [])
             /\ ((exists k, In k seen /\ k <> top) ->
                 exists second second_share,
                   second_statement
                   = ["Second most common sentiment: **" ++ second ++ "** ("
                      ++ fixed false 1 second_share ++ "%)."]
                   /\ In second seen /\ second <> top
                   /\ second_share == share_of seen second
                   /\ (forall k, In k seen -> k <> top ->
                                 share_of seen k <= second_share))).
Proof.
  intros He Hs _.
  assert (Hrun : insights "sentiment" data
                 = share_statements sort_values_desc
                     (fun top share => "Dominant sentiment: **" ++ top
                                       ++ "** (" ++ fixed false 1 share ++ "%).")
                     (fun second share =>
                        "Second most common sentiment: **" ++ second
                        ++ "** (" ++ fixed false 1 share ++ "%).")
                     ("Overall, "
                      ++ digits (N.of_nat (List.length (present sentiment)))
                      ++ " sentiment entries were analyzed.")
                     sentiment).
  { unfold generate_insights. rewrite He.
    change ("sentiment" =? "sentiment") with true. cbv iota.
    rewrite Hs. reflexivity. }
  rewrite Hrun. apply share_statements_spec.
Qed.

(** The media type statements follow the same rule as the sentiment ones,
    on non-empty data with fewer than 2^40 media type entries,
    none of whose percentages is a rounding tie: none when every media type
    is missing; otherwise the type with the largest share, printed to one
    decimal, the runner-up only when another type occurs, and the number of
    non-missing entries. *)
Theorem media_type_statements (data : DataFrame cell)
  (media_type : list (option string)) :
  empty data = false ->
  text_column data "media_type" = Returned media_type ->
  shares_print_exactly (present media_type) = true ->
  let seen := present media_type in
       (seen = [] -> insights "media_type_mix" data = Returned [])
       /\ (seen <> [] ->
           exists top top_share second_statement,
             insights "media_type_mix" data
             = Returned
                 (["The most prevalent media type is **" ++ top ++ "** ("
                   ++ fixed false 1 top_share ++ "%)."]
                  +++ second_statement
                  +++ ["In total, **" ++ digits (N.of_nat (List.length seen))
                       ++ "** media type entries were counted."])
             /\ In top seen
             /\ top_share == share_of seen top
             /\ (forall k, In k seen -> share_of seen k <= top_share)
             /\ ((forall k, In k seen -> k = top) -> second_statement = [])
             /\ ((exists k, In k seen /\ k <> top) ->
                 exists second second_share,
                   second_statement
                   = ["The second most common media type is **" ++ second
                      ++ "** (" ++ fixed false 1 second_share ++ "%)."]
                   /\ In second seen /\ second <> top
                   /\ second_share == share_of seen second
                   /\ (forall k, In k seen -> k <> top ->
                                 share_of seen k <= second_share))).
Proof.
  intros He Hs _.
  assert (Hrun : insights "media_type_mix" data
                 = share_statements sort_values_desc
                     (fun top share => "The most prevalent media type is **"
                                       ++ top ++ "** ("
                                       ++ fixed false 1 share ++ "%).")
                     (fun second share =>
                        "The second most common media type is **" ++ second
                        ++ "** (" ++ fixed false 1 share ++ "%).")
                     ("In total, **"
                      ++ digits (N.of_nat (List.length (present media_type)))
                      ++ "** media type entries were counted.")
                     media_type).
  { unfold generate_insights. rewrite He.
    change ("media_type_mix" =? "sentiment") with false.
    change ("media_type_mix" =? "engagement_trend") with false.
    change ("media_type_mix" =? "platform_engagements") with false.
    change ("media_type_mix" =? "media_type_mix") with true. cbv iota.
    rewrite Hs. reflexivity. }
  rewrite Hrun. apply share_statements_spec.
Qed.

End ShareProperties.

(** ** Grouped keys come out in ascending order *)

Section SortedKeys.

Context {K : Type}.
Variable leb : K -> K -> bool.
Hypothesis leb_total : forall x y, leb x y = true \/ leb y x = true.
Hypothesis leb_trans :
  forall x y z, leb x y = true -> leb y z = true -> leb x z = true.

Lemma insert_sorted_sorted (x : K) (l : list K) :
  StronglySorted (fun a b => leb a b = true) l ->
  StronglySorted (fun a b => leb a b = true) (insert_sorted leb x l).
Proof using leb_total leb_trans.
  induction l as [|y l IH]; intro Hs; simpl.
  - repeat constructor.
  - inversion Hs as [|y' l' Hs' Hall]; subst.
    destruct (leb x y) eqn:E.
    + constructor; [assumption|]. constructor; [assumption|].
      eapply Forall_impl; [|exact Hall]. intros z Hz. simpl in Hz.
      eapply leb_trans; eassumption.
    + constructor; [now apply IH|].
      eapply Permutation_Forall; [symmetry; apply insert_sorted_perm|].
      constructor; [|assumption].
      destruct (leb_total x y); [congruence | assumption].
Qed.

Lemma sort_keys_sorted (l : list K) :
  StronglySorted (fun a b => leb a b = true) (sort_keys leb l).
Proof using leb_total leb_trans.
  unfold sort_keys. induction l as [|x l IH]; simpl; [constructor|].
  now apply insert_sorted_sorted.
Qed.

End SortedKeys.

Lemma map_snd_combine {A B : Type} (l : list A) (l' : list B) :
  List.length l = List.length l' -> map snd (combine l l') = l'.
Proof.
  revert l'. induction l as [|a l IH]; intros [|b l'] H; simpl in *;
    try reflexivity; try discriminate.
  f_equal. apply IH. lia.
Qed.

Lemma keyed_In_present {K V : Type} (ks : list (option K)) (vs : list V)
  (r : K * V) :
  In r (keyed ks vs) -> In (fst r) (present ks).
Proof.
  revert vs. induction ks as [|[k|] ks IH]; intros [|v vs] H; simpl in *;
    try contradiction.
  - destruct H as [<- | H]; [now left | right; eapply IH, H].
  - eapply IH, H.
Qed.

Lemma count_of_positive (l : list string) (k : string) :
  In k l -> (1 <= count_of String.eqb l k)%nat.
Proof.
  unfold count_of. induction l as [|x l IH]; intro H; [contradiction|].
  simpl. destruct H as [E | H].
  - subst. rewrite String.eqb_refl. simpl. lia.
  - destruct (k =? x); simpl; [lia | now apply IH].
Qed.

Lemma platform_rows (opening_rows : list (string * Q)) :
  match opening_rows with
  | [] => []
  | top :: _ =>
      ["The platform with the highest engagement is **" ++ fst top
       ++ "** with **" ++ fixed true 0 (snd top) ++ "** engagements."]
      +++ match nth_error opening_rows 1 with
          | Some second =>
              ["The second highest engaging platform is **" ++ fst second
               ++ "** with **" ++ fixed true 0 (snd second)
               ++ "** engagements."]
          | None => []
          end
      +++ ["A total of **" ++ digits (N.of_nat (List.length opening_rows))
           ++ "** unique platforms were identified."]
  end
  = match opening_rows with
    | [] => []
    | _ :: _ =>
        map (fun re => platform_statement (fst re) (snd re))
            (combine platform_phrases opening_rows)
        +++ ["A total of **" ++ digits (N.of_nat (List.length opening_rows))
             ++ "** unique platforms were identified."]
    end.
Proof.
  destruct opening_rows as [|a [|b l]]; reflexivity.
Qed.

(** ** Insight Generator and chart tables: platforms, trend, pies, locations *)

Section ChartProperties.

Variable sort_values_desc : list (string * Q) -> list (string * Q).

Hypothesis sort_values_perm :
  forall s, Permutation (sort_values_desc s) s.
Hypothesis sort_values_descending :
  forall s, descending (sort_values_desc s).

Local Notation "'insights'" := (generate_insights sort_values_desc).

Lemma platform_sums_spec (platforms : list (option string))
  (engagements : list Q) :
  List.length platforms = List.length engagements ->
  small_whole_numbers engagements = true ->
  let rows := keyed platforms engagements in
  let ranking :=
    sort_values_desc (groupby_sum String.eqb String.leb platforms engagements) in
  NoDup (map fst ranking)
  /\ (forall p, In p (map fst ranking) <-> In p (present platforms))
  /\ (forall e, In e ranking -> snd e = group_total String.eqb rows (fst e))
  /\ descending ranking
  /\ Qsum (map snd ranking) == Qsum (map snd rows).
Proof.
  intros Hlen Hsmall rows ranking. unfold ranking.
  rewrite groupby_sum_exact by assumption. fold rows.
  set (keys := sort_keys String.leb (distinct String.eqb (map fst rows))).
  set (base := map (fun k => (k, group_total String.eqb rows k)) keys).
  assert (Hkeys : forall p, In p keys <-> In p (present platforms)).
  { intro p. unfold keys. rewrite (group_keys_In _ _ String.eqb_eq).
    unfold rows. now rewrite map_fst_keyed. }
  assert (Hnd : NoDup keys) by apply group_keys_NoDup, String.eqb_eq.
  assert (Hfst : map fst base = keys).
  { unfold base. rewrite map_map. simpl. apply map_id. }
  assert (Hperm : Permutation (map fst (sort_values_desc base)) keys).
  { rewrite <- Hfst. apply Permutation_map, sort_values_perm. }
  split; [|split; [|split; [|split]]].
  - eapply Permutation_NoDup; [symmetry; exact Hperm | exact Hnd].
  - intro p. rewrite <- Hkeys. split; apply Permutation_in;
      [|symmetry]; exact Hperm.
  - intros e He. apply (Permutation_in _ (sort_values_perm base)) in He.
    unfold base in He. apply in_map_iff in He. destruct He as (k & <- & _).
    reflexivity.
  - apply sort_values_descending.
  - rewrite (Qsum_perm _ _ (Permutation_map snd (sort_values_perm base))).
    unfold base. rewrite map_map. simpl.
    apply (group_totals_sum String.eqb String.eqb_eq); [exact Hnd|].
    intros r Hr. apply Hkeys. eapply keyed_In_present, Hr.
Qed.

(** On a non-empty cleaned set whose engagements are whole numbers with
    absolute values adding up to less than 2^52, the platform statements
    are: none when every platform is missing; otherwise the platforms are
    ranked by their engagement totals, largest first, and the statements
    name the first, the second when there is one, and the number of
    distinct platforms. The ranking is the table of the platform bar
    chart. *)
Theorem platform_statements (data : DataFrame cell) (engagements : list Q) :
  cleaned_record_set data ->
  empty data = false ->
  number_column data "engagements" = Returned engagements ->
  small_whole_numbers engagements = true ->
  exists platforms ranking,
    text_column data "platform" = Returned platforms
    /\ platform_engagements sort_values_desc data = Returned ranking
    /\ NoDup (map fst ranking)
    /\ (forall p, In p (map fst ranking) <-> In p (present platforms))
    /\ (forall e, In e ranking ->
          snd e = group_total String.eqb (keyed platforms engagements) (fst e))
    /\ descending ranking
    /\ (present platforms = [] ->
        insights "platform_engagements" data = Returned [])
    /\ (present platforms <> [] ->
        insights "platform_engagements" data
        = Returned
            (map (fun re => platform_statement (fst re) (snd re))
                 (combine platform_phrases ranking)
             +++ ["A total of **" ++ digits (N.of_nat (List.length ranking))
                  ++ "** unique platforms were identified."])).
Proof.
  intros (_ & (es & Hes & Hen) & (ps & Hps & Hpn) & _) He Hnum Hsmall.
  rewrite Hnum in Hes. injection Hes as <-. rename engagements into es.
  assert (Hlen : List.length ps = List.length es) by congruence.
  destruct (platform_sums_spec ps es Hlen Hsmall)
    as (Hnd & Hin & Hval & Hdesc & _).
  set (ranking := sort_values_desc (groupby_sum String.eqb String.leb ps es))
    in *.
  exists ps, ranking.
  assert (Hrun : insights "platform_engagements" data
                 = Returned
                     match ranking with
                     | [] => []
                     | _ :: _ =>
                         map (fun re => platform_statement (fst re) (snd re))
                             (combine platform_phrases ranking)
                         +++ ["A total of **"
                              ++ digits (N.of_nat (List.length ranking))
                              ++ "** unique platforms were identified."]
                     end).
  { unfold generate_insights. rewrite He.
    change ("platform_engagements" =? "sentiment") with false.
    change ("platform_engagements" =? "engagement_trend") with false.
    change ("platform_engagements" =? "platform_engagements") with true.
    cbv iota. rewrite Hps, Hnum. cbn [bind]. cbv zeta. fold ranking.
    rewrite <- platform_rows. destruct ranking; reflexivity. }
  repeat split; try assumption; try apply Hin.
  - unfold platform_engagements. rewrite Hps, Hnum. reflexivity.
  - intro Hnone. rewrite Hrun. destruct ranking as [|e r]; [reflexivity|].
    exfalso. assert (H : In (fst e) (present ps)) by (apply Hin; now left).
    now rewrite Hnone in H.
  - intro Hsome. rewrite Hrun. destruct ranking as [|e r]; [|reflexivity].
    exfalso. destruct (present ps) as [|p l]; [congruence|].
    destruct (proj2 (Hin p)); now left.
Qed.

(** On a cleaned set whose engagements are whole numbers with absolute
    values adding up to less than 2^52, the bars of the platform chart
    carry distinct platforms in descending order of their totals, and the
    totals add up to the engagements of all rows that have a platform. *)
Theorem platform_chart_adds_up (data : DataFrame cell)
  (engagements : list Q) :
  cleaned_record_set data ->
  number_column data "engagements" = Returned engagements ->
  small_whole_numbers engagements = true ->
  exists platforms bars,
    text_column data "platform" = Returned platforms
    /\ platform_engagements sort_values_desc data = Returned bars
    /\ NoDup (map fst bars)
    /\ descending bars
    /\ Qsum (map snd bars) == Qsum (map snd (keyed platforms engagements)).
Proof.
  intros (_ & (es & Hes & Hen) & (ps & Hps & Hpn) & _) Hnum Hsmall.
  rewrite Hnum in Hes. injection Hes as <-. rename engagements into es.
  assert (Hlen : List.length ps = List.length es) by congruence.
  destruct (platform_sums_spec ps es Hlen Hsmall)
    as (Hnd & _ & _ & Hdesc & Hsum).
  exists ps, (sort_values_desc (groupby_sum String.eqb String.leb ps es)).
  repeat split; try assumption.
  unfold platform_engagements. rewrite Hps, Hnum. reflexivity.
Qed.

(** The slices of the two pie charts carry distinct values, each with at
    least one occurrence, and the counts add up to the number of rows whose
    sentiment, or media type, is not missing. *)
Theorem pie_charts_add_up (data : DataFrame cell) :
  cleaned_record_set data ->
  exists sentiment media_type slices slices',
    text_column data "sentiment" = Returned sentiment
    /\ text_column data "media_type" = Returned media_type
    /\ sentiment_counts sort_values_desc data = Returned slices
    /\ media_type_counts sort_values_desc data = Returned slices'
    /\ NoDup (map fst slices) /\ NoDup (map fst slices')
    /\ (forall e, In e slices -> 1 <= snd e)
    /\ (forall e, In e slices' -> 1 <= snd e)
    /\ Qsum (map snd slices)
       == inject_Z (Z.of_nat (List.length (present sentiment)))
    /\ Qsum (map snd slices')
       == inject_Z (Z.of_nat (List.length (present media_type))).
Proof.
  intros (_ & _ & _ & (s & Hs & _) & _ & (m & Hm & _)).
  assert (Hone : forall keys e,
             In e (value_counts sort_values_desc keys) -> 1 <= snd e).
  { intros keys e He.
    destruct (value_counts_spec sort_values_desc sort_values_perm
                sort_values_descending keys) as (_ & Hin & Hcount & _).
    rewrite (Hcount e He). change 1 with (inject_Z 1). rewrite <- Zle_Qle.
    assert (H : (1 <= count_of String.eqb (present keys) (fst e))%nat).
    { apply count_of_positive, Hin, in_map, He. }
    lia. }
  exists s, m, (value_counts sort_values_desc s),
    (value_counts sort_values_desc m).
  split; [exact Hs|]. split; [exact Hm|].
  split; [unfold sentiment_counts; now rewrite Hs|].
  split; [unfold media_type_counts; now rewrite Hm|].
  split; [apply (value_counts_spec sort_values_desc sort_values_perm
                   sort_values_descending s)|].
  split; [apply (value_counts_spec sort_values_desc sort_values_perm
                   sort_values_descending m)|].
  split; [apply Hone|]. split; [apply Hone|].
  split; apply value_counts_total; assumption.
Qed.

End ChartProperties.

Section TrendChartProperties.

Variable sort_values_desc : list (string * Q) -> list (string * Q).

Local Notation "'insights'" := (generate_insights sort_values_desc).

(** The run of the engagement-trend branch on a non-empty cleaned set. *)
Lemma engagement_trend_run (data : DataFrame cell) :
  cleaned_record_set data ->
  empty data = false ->
  exists ds es d rest peak total,
    date_column data "date" = Returned (map Some ds)
    /\ number_column data "engagements" = Returned es
    /\ List.length ds = List.length es
    /\ sort_keys Date_leb (distinct Date_eqb ds) = d :: rest
    /\ argmax (map (fun k => (k, as_dtype es
                                     (group_total Date_eqb (combine ds es) k)))
                   (d :: rest)) = Some (peak, total)
    /\ insights "engagement_trend" data
       = Returned
           ["Peak engagement occurred on **" ++ iso peak ++ "** with **"
            ++ fixed true 0 total ++ "** total engagements.";
            "Average daily engagements across the period: **"
            ++ fixed true 0
                 (mean (map (fun k => (k, as_dtype es
                                     (group_total Date_eqb (combine ds es) k)))
                            (d :: rest)))
            ++ "**.";
            "Data covers the period from **" ++ iso (index_min Date_leb d rest)
            ++ "** to **" ++ iso (index_max Date_leb d rest) ++ "**."].
Proof.
  intros (Hdates & Hnum & _) He.
  destruct Hdates as (ds & Hd & Hdn). destruct Hnum as (es & Hes & Hen).
  assert (Hlen : List.length ds = List.length es) by congruence.
  assert (Hdays : exists d rest,
             sort_keys Date_leb (distinct Date_eqb ds) = d :: rest).
  { destruct (sort_keys Date_leb (distinct Date_eqb ds)) as [|d rest] eqn:E;
      [|now exists d, rest].
    exfalso. destruct ds as [|d0 ds'].
    - unfold empty in He. destruct (index data); [|discriminate Hdn].
      discriminate.
    - assert (H : In d0 (sort_keys Date_leb (distinct Date_eqb (d0 :: ds'))))
        by (apply (group_keys_In _ _ Date_eqb_eq); now left).
      now rewrite E in H. }
  destruct Hdays as (d & rest & Hdays).
  destruct (argmax_Some
              (map (fun k => (k, as_dtype es
                                     (group_total Date_eqb (combine ds es) k)))
                   (d :: rest))) as (peak & total & Hmax); [discriminate|].
  exists ds, es, d, rest, peak, total.
  repeat split; try assumption.
  unfold generate_insights. rewrite He.
  change ("engagement_trend" =? "sentiment") with false.
  change ("engagement_trend" =? "engagement_trend") with true.
  cbv iota. rewrite Hd, Hes. cbn [bind]. cbv zeta.
  rewrite daily_engagements_unfold by assumption. cbv zeta. rewrite Hdays.
  assert (Hfst : map fst (map (fun k => (k, as_dtype es (group_total Date_eqb
                                                         (combine ds es) k))) (d :: rest))
                 = d :: rest).
  { rewrite map_map. simpl. f_equal. apply map_id. }
  rewrite Hfst. unfold idxmax, series_max. rewrite Hmax. reflexivity.
Qed.


(** On a cleaned set whose engagements are whole numbers with absolute
    values adding up to less than 2^52, the points of the line chart carry
    the distinct dates of the set in ascending order, and their totals add
    up to the engagements of all rows. *)
Theorem trend_chart_adds_up (data : DataFrame cell) (es : list Q) :
  cleaned_record_set data ->
  number_column data "engagements" = Returned es ->
  small_whole_numbers es = true ->
  exists ds points,
    date_column data "date" = Returned (map Some ds)
    /\ daily_engagements data = Returned points
    /\ NoDup (map fst points)
    /\ (forall d, In d (map fst points) <-> In d ds)
    /\ StronglySorted Date_le (map fst points)
    /\ Qsum (map snd points) == Qsum es.
Proof.
  intros ((ds & Hd & Hdn) & (es' & Hes & Hen) & _) Hnum Hsmall.
  rewrite Hnum in Hes. injection Hes as <-.
  assert (Hlen : List.length ds = List.length es) by congruence.
  set (days := sort_keys Date_leb (distinct Date_eqb ds)).
  exists ds,
    (map (fun k => (k, group_total Date_eqb (combine ds es) k)) days).
  assert (Hfst : map fst (map (fun k => (k, group_total Date_eqb
                                              (combine ds es) k)) days)
                 = days).
  { rewrite map_map. simpl. apply map_id. }
  split; [exact Hd|]. split.
  { unfold daily_engagements. rewrite Hd, Hnum. cbn [bind].
    now rewrite daily_engagements_exact. }
  rewrite Hfst. split; [apply group_keys_NoDup, Date_eqb_eq|].
  split; [intro d; apply group_keys_In, Date_eqb_eq|].
  split; [apply sort_keys_sorted; [apply Date_leb_total | apply Date_leb_trans]|].
  rewrite map_map. simpl.
  rewrite (group_totals_sum Date_eqb Date_eqb_eq).
  - now rewrite map_snd_combine.
  - apply group_keys_NoDup, Date_eqb_eq.
  - intros [k v] Hr. apply (group_keys_In _ _ Date_eqb_eq).
    simpl. eapply in_combine_l, Hr.
Qed.

(** The location chart has at most five bars, and the location statements
    are read off its bars: one statement for each of the first three bars,
    in order, or the no-data sentence when the chart has no bar. *)
Theorem location_chart_matches_statements (data : DataFrame cell)
  (bars : list (string * Q)) :
  empty data = false ->
  top_locations sort_values_desc data = Returned bars ->
  (List.length bars <= 5)%nat
  /\ insights "top_locations" data
     = Returned
         match bars with
         | [] => ["No location data available for analysis."]
         | _ :: _ =>
             map (fun re => ranked_location (fst re) (snd re))
                 (combine rank_phrases bars)
         end.
Proof.
  intros He Hb. unfold top_locations in Hb.
  destruct (text_column data "location") as [location|e] eqn:Hl;
    [|discriminate].
  assert (Hbars : bars = firstn 5 (value_counts sort_values_desc location))
    by (unfold bind in Hb; congruence).
  clear Hb. subst bars.
  split; [apply firstn_le_length|].
  unfold generate_insights. rewrite He.
  change ("top_locations" =? "sentiment") with false.
  change ("top_locations" =? "engagement_trend") with false.
  change ("top_locations" =? "platform_engagements") with false.
  change ("top_locations" =? "media_type_mix") with false.
  change ("top_locations" =? "top_locations") with true.
  cbv iota. rewrite Hl. cbn [bind]. cbv zeta.
  destruct (firstn 5 (value_counts sort_values_desc location)) as [|a l] eqn:E;
    [reflexivity|].
  rewrite <- E. rewrite <- rank_statements by (rewrite E; discriminate).
  rewrite E. reflexivity.
Qed.

End TrendChartProperties.

(** ** The page script *)

Lemma and_then_Forall {A B : Type} (P : element -> Prop) (m : render A)
  (k : A -> render B) :
  Forall P (fst m) -> (forall a, Forall P (fst (k a))) ->
  Forall P (fst (and_then m k)).
Proof.
  intros Hm Hk. unfold and_then. destruct (snd m) as [a|e]; simpl.
  - apply Forall_app. split; [assumption | apply Hk].
  - assumption.
Qed.

Lemma and_then_count {A B : Type} (n1 n2 : nat) (m : render A)
  (k : A -> render B) :
  (forall a, snd m = Returned a -> chart_count (fst m) = n1) ->
  (forall a b, snd (k a) = Returned b -> chart_count (fst (k a)) = n2) ->
  forall b, snd (and_then m k) = Returned b ->
            chart_count (fst (and_then m k)) = (n1 + n2)%nat.
Proof.
  intros Hm Hk b. unfold and_then. destruct (snd m) as [a|e] eqn:Em; simpl.
  - intro H. unfold chart_count in *. rewrite filter_app, length_app.
    rewrite (Hm a eq_refl), (Hk a b H). reflexivity.
  - discriminate.
Qed.

Ltac count_step :=
  match goal with
  | |- forall b, snd (and_then (emit (px_pie _ _)) _) = _ -> _ = S ?n =>
      apply (and_then_count 1 n)
  | |- forall b, snd (and_then (emit (px_line _ _)) _) = _ -> _ = S ?n =>
      apply (and_then_count 1 n)
  | |- forall b, snd (and_then (emit (px_bar _ _)) _) = _ -> _ = S ?n =>
      apply (and_then_count 1 n)
  | |- forall b, snd (and_then _ _) = _ -> _ = ?n =>
      apply (and_then_count 0 n)
  end.

Section ScriptProperties.

Context {K : Type}.
Variable read_csv : string -> string + DataFrame raw_cell.
Variable cleaner :
  K -> DataFrame raw_cell -> outcome (DataFrame cell * string) * K.
Variable sort_values_desc : list (string * Q) -> list (string * Q).

Local Notation "'script'" := (run read_csv cleaner sort_values_desc).
Local Notation "'upload_part'" := (handle_upload read_csv cleaner).

(** A run, in terms of its upload handling. *)
Lemma run_unfold (st : session) (k : K) (uploaded_file : option UploadedFile) :
  script st k uploaded_file
  = let '(st', k', part) := upload_part st k uploaded_file in
    (st', k',
     match snd part with
     | Returned _ =>
         if empty (cleaned_data st') then
           (List.app page_top
              (List.app (fst part) [st_markdown "---"; prompt]),
            Returned tt)
         else
           (List.app page_top
              (List.app (fst part)
                 (st_markdown "---"
                  :: fst (charts sort_values_desc (cleaned_data st')))),
            snd (charts sort_values_desc (cleaned_data st')))
     | Failed e => (List.app page_top (fst part), Failed e)
     end).
Proof.
  unfold run. destruct (upload_part st k uploaded_file) as [[st' k'] [sh r]].
  destruct r as [[]|e]; [|reflexivity].
  destruct (empty (cleaned_data st')); reflexivity.
Qed.

Lemma run_shows_upload_part (st st' : session) (k k' : K)
  (uploaded_file : option UploadedFile) (page : render unit) (e : element) :
  script st k uploaded_file = (st', k', page) ->
  In e (fst (snd (upload_part st k uploaded_file))) -> In e (fst page).
Proof.
  rewrite run_unfold.
  destruct (upload_part st k uploaded_file) as [[st1 k1] [sh r]].
  intros Hrun Hin. injection Hrun as <- <- <-.
  assert (Hmid : forall top tail : list element,
             In e (List.app top (List.app sh tail)))
    by (intros; apply in_or_app; right; apply in_or_app; now left).
  destruct r as [[]|x]; [destruct (empty (cleaned_data st1))|].
  - exact (Hmid page_top _).
  - exact (Hmid page_top _).
  - exact (in_or_app page_top sh e (or_intror Hin)).
Qed.

Lemma show_insights_no_error (chart_type : string) (df : DataFrame cell) :
  Forall (fun e => is_error e = false)
         (fst (show_insights sort_values_desc chart_type df)).
Proof.
  unfold show_insights. apply and_then_Forall; [constructor|].
  intro l. simpl. apply Forall_forall. intros e He.
  apply in_map_iff in He. destruct He as (s & <- & _). reflexivity.
Qed.

Lemma charts_no_error (df : DataFrame cell) :
  Forall (fun e => is_error e = false) (fst (charts sort_values_desc df)).
Proof.
  unfold charts.
  repeat (apply and_then_Forall;
          [first [apply show_insights_no_error
                 | constructor; [reflexivity | constructor]
                 | constructor]
          | intro]).
  constructor; [reflexivity | constructor].
Qed.

Lemma show_insights_count (chart_type : string) (df : DataFrame cell) (b : unit) :
  snd (show_insights sort_values_desc chart_type df) = Returned b ->
  chart_count (fst (show_insights sort_values_desc chart_type df)) = 0%nat.
Proof.
  unfold show_insights. apply (and_then_count 0 0).
  - reflexivity.
  - intros l _ _. unfold chart_count. simpl.
    induction l as [|s l IH]; [reflexivity | exact IH].
Qed.

Lemma charts_count (df : DataFrame cell) (b : unit) :
  snd (charts sort_values_desc df) = Returned b ->
  chart_count (fst (charts sort_values_desc df)) = 5%nat.
Proof.
  revert b. unfold charts.
  repeat (count_step;
          [intros ? ?;
           first [eapply show_insights_count; eassumption | reflexivity]
          | intros ?]).
  intros ? _. reflexivity.
Qed.

(** What the upload handling can leave behind: it shows no chart, and when
    it shows an error it has cleared the session data and ran to its end. *)
Lemma upload_part_cases (st : session) (k : K)
  (uploaded_file : option UploadedFile) :
  let '(st', k', part) := upload_part st k uploaded_file in
  chart_count (fst part) = 0%nat
  /\ (existsb is_error (fst part) = true ->
      cleaned_data st' = empty_frame /\ snd part = Returned tt).
Proof.
  unfold handle_upload. destruct uploaded_file as [f|].
  - destruct (read_csv (getvalue f)) as [e|df].
    + simpl. split; [reflexivity | auto].
    + destruct (empty df); simpl.
      * split; [reflexivity | discriminate].
      * destruct (cleaner k df) as [[[cleaned_df msg]|e] k'].
        -- destruct (msg =? ""); simpl.
           ++ split; [reflexivity | discriminate].
           ++ split; [reflexivity | auto].
        -- simpl. split; [reflexivity | discriminate].
  - destruct (file_name st =? ""); simpl; split;
      try reflexivity; discriminate.
Qed.

(** A run that completes and shows an error box leaves no data in the
    session and shows no chart. *)
Theorem error_clears_session (st st' : session) (k k' : K)
  (uploaded_file : option UploadedFile) (shown : list element) :
  script st k uploaded_file = (st', k', (shown, Returned tt)) ->
  existsb is_error shown = true ->
  cleaned_data st' = empty_frame /\ chart_count shown = 0%nat.
Proof.
  rewrite run_unfold.
  pose proof (upload_part_cases st k uploaded_file) as Hcases.
  destruct (upload_part st k uploaded_file) as [[st1 k1] [sh r]].
  destruct Hcases as [Hcount Herr].
  cbv beta iota zeta delta [fst snd] in Hcount, Herr |- *.
  destruct r as [[]|e]; [|discriminate].
  intros Hrun Hshown.
  assert (Hsh : existsb is_error sh = true).
  { destruct (existsb is_error sh) eqn:E; [reflexivity|]. exfalso.
    destruct (empty (cleaned_data st1));
      pose proof (f_equal (fun p => fst (snd p)) Hrun) as Hs;
      cbv beta iota delta [fst snd] in Hs; rewrite <- Hs in Hshown;
      rewrite !existsb_app, E in Hshown;
      change (existsb is_error page_top) with false in Hshown;
      cbn [existsb is_error orb prompt] in Hshown; try discriminate.
    apply existsb_exists in Hshown. destruct Hshown as (x & Hx & Hex).
    pose proof (charts_no_error (cleaned_data st1)) as Hno.
    rewrite Forall_forall in Hno. rewrite (Hno x Hx) in Hex. discriminate. }
  destruct (Herr Hsh) as [Hdata _].
  rewrite Hdata in Hrun. change (empty (@empty_frame cell)) with true in Hrun.
  cbv beta iota in Hrun. injection Hrun as <- <- <-.
  split; [assumption|].
  unfold chart_count in *. cbn [filter is_chart].
  rewrite filter_app, length_app, Hcount. reflexivity.
Qed.

(** A run that completes shows the five charts when the session holds data
    afterwards; otherwise it shows no chart and ends with the prompt to
    upload a file. *)
Theorem five_charts_or_prompt (st st' : session) (k k' : K)
  (uploaded_file : option UploadedFile) (shown : list element) :
  script st k uploaded_file = (st', k', (shown, Returned tt)) ->
  if empty (cleaned_data st') then
    chart_count shown = 0%nat /\ last shown prompt = prompt
  else chart_count shown = 5%nat.
Proof.
  rewrite run_unfold.
  pose proof (upload_part_cases st k uploaded_file) as Hcases.
  destruct (upload_part st k uploaded_file) as [[st1 k1] [sh r]].
  destruct Hcases as [Hcount _].
  cbv beta iota zeta delta [fst snd] in Hcount |- *.
  destruct r as [[]|e]; [|discriminate].
  destruct (empty (cleaned_data st1)) eqn:Ee; intro Hrun.
  - injection Hrun as <- <- <-. rewrite Ee. split.
    + unfold chart_count in *. cbn [filter is_chart].
      rewrite filter_app, length_app, Hcount. reflexivity.
    + change (last (List.app page_top
                      (List.app sh (List.app [st_markdown "---"] [prompt])))
                   prompt = prompt).
      rewrite !app_assoc. apply last_last.
  - injection Hrun as <- <- <- Hdone. rewrite Ee.
    pose proof (charts_count _ _ Hdone) as Hfive.
    unfold chart_count in *. cbn [filter is_chart].
    rewrite filter_app, length_app, Hcount.
    cbn [filter is_chart]. exact Hfive.
Qed.

Lemma upload_part_invariant (st : session) (k : K)
  (uploaded_file : option UploadedFile) :
  named uploaded_file ->
  (file_name st = "" -> cleaned_data st = empty_frame) ->
  let '(st', _, _) := upload_part st k uploaded_file in
  file_name st' = "" -> cleaned_data st' = empty_frame.
Proof.
  intros Hname Hinv. unfold handle_upload. destruct uploaded_file as [f|].
  - simpl in Hname. destruct (read_csv (getvalue f)) as [e|df].
    + simpl. reflexivity.
    + destruct (empty df); simpl; [reflexivity|].
      destruct (cleaner k df) as [[[cleaned_df msg]|e] k'].
      * destruct (msg =? ""); simpl; [congruence | reflexivity].
      * simpl. congruence.
  - destruct (file_name st =? ""); simpl; [assumption | reflexivity].
Qed.

Lemma reruns_invariant (uploads : list (option UploadedFile)) (st : session)
  (k : K) :
  Forall named uploads ->
  (file_name st = "" -> cleaned_data st = empty_frame) ->
  let st' := fst (reruns read_csv cleaner sort_values_desc st k uploads) in
  file_name st' = "" -> cleaned_data st' = empty_frame.
Proof.
  revert st k. induction uploads as [|u uploads IH]; intros st k Hall Hinv.
  - exact Hinv.
  - inversion Hall as [|? ? Hu Hrest]; subst. simpl. rewrite run_unfold.
    pose proof (upload_part_invariant st k u Hu Hinv) as Hstep.
    destruct (upload_part st k u) as [[st1 k1] part].
    apply IH; assumption.
Qed.

(** After any series of runs that starts from the initial session, with
    named uploads, a run without an upload shows the upload prompt and no
    chart, and leaves the session as it initially was. *)
Theorem no_upload_shows_prompt (k0 : K)
  (uploads : list (option UploadedFile)) :
  Forall named uploads ->
  let '(st, k) :=
    reruns read_csv cleaner sort_values_desc initial_session k0 uploads in
  script st k None
  = (initial_session, k,
     (List.app page_top [st_markdown "---"; prompt], Returned tt)).
Proof.
  intro Hall.
  pose proof (reruns_invariant uploads initial_session k0 Hall
                (fun _ => eq_refl)) as Hinv.
  destruct (reruns read_csv cleaner sort_values_desc initial_session k0 uploads)
    as [st k].
  simpl in Hinv. rewrite run_unfold. unfold handle_upload.
  destruct (file_name st =? "") eqn:E; simpl.
  - apply String.eqb_eq in E. specialize (Hinv E).
    destruct st as [data fname]. simpl in *. subst. reflexivity.
  - reflexivity.
Qed.

End ScriptProperties.

(** ** Insight Generator: it returns on every Cleaned Record Set *)

Section ReturnProperties.

Variable sort_values_desc : list (string * Q) -> list (string * Q).

Hypothesis sort_values_perm :
  forall s, Permutation (sort_values_desc s) s.
Hypothesis sort_values_descending :
  forall s, descending (sort_values_desc s).

Local Notation "'insights'" := (generate_insights sort_values_desc).

Lemma share_statements_returns (first_text second_text : string -> Q -> string)
  (last_text : string) (keys : list (option string)) :
  exists l,
    share_statements sort_values_desc first_text second_text last_text keys
    = Returned l.
Proof.
  destruct (share_statements_spec sort_values_desc sort_values_perm
              sort_values_descending first_text second_text last_text keys)
    as [Hnone Hsome].
  destruct (present keys) as [|k seen].
  - eexists. now apply Hnone.
  - destruct Hsome as (top & share & second & H & _); [discriminate|].
    eexists. exact H.
Qed.

Lemma sentiment_returns (data : DataFrame cell) :
  cleaned_record_set data -> empty data = false ->
  exists l, insights "sentiment" data = Returned l.
Proof.
  intros (_ & _ & _ & (sentiment & Hs & _) & _) He.
  unfold generate_insights. rewrite He.
  change ("sentiment" =? "sentiment") with true. cbv iota. rewrite Hs.
  apply (share_statements_returns
           (fun top share => "Dominant sentiment: **" ++ top
                             ++ "** (" ++ fixed false 1 share ++ "%).")
           (fun second share =>
              "Second most common sentiment: **" ++ second
              ++ "** (" ++ fixed false 1 share ++ "%).")
           ("Overall, "
            ++ digits (N.of_nat (List.length (present sentiment)))
            ++ " sentiment entries were analyzed.")
           sentiment).
Qed.

Lemma media_type_returns (data : DataFrame cell) :
  cleaned_record_set data -> empty data = false ->
  exists l, insights "media_type_mix" data = Returned l.
Proof.
  intros (_ & _ & _ & _ & _ & (media_type & Hs & _)) He.
  unfold generate_insights. rewrite He.
  change ("media_type_mix" =? "sentiment") with false.
  change ("media_type_mix" =? "engagement_trend") with false.
  change ("media_type_mix" =? "platform_engagements") with false.
  change ("media_type_mix" =? "media_type_mix") with true. cbv iota.
  rewrite Hs.
  apply (share_statements_returns
           (fun top share => "The most prevalent media type is **"
                             ++ top ++ "** ("
                             ++ fixed false 1 share ++ "%).")
           (fun second share =>
              "The second most common media type is **" ++ second
              ++ "** (" ++ fixed false 1 share ++ "%).")
           ("In total, **"
            ++ digits (N.of_nat (List.length (present media_type)))
            ++ "** media type entries were counted.")
           media_type).
Qed.

Lemma platform_returns (data : DataFrame cell) :
  cleaned_record_set data -> empty data = false ->
  exists l, insights "platform_engagements" data = Returned l.
Proof.
  intros (_ & (es & Hes & _) & (ps & Hps & _) & _) He.
  unfold generate_insights. rewrite He.
  change ("platform_engagements" =? "sentiment") with false.
  change ("platform_engagements" =? "engagement_trend") with false.
  change ("platform_engagements" =? "platform_engagements") with true.
  cbv iota. rewrite Hps, Hes. cbn [bind]. cbv zeta.
  destruct (sort_values_desc (groupby_sum String.eqb String.leb ps es));
    eexists; reflexivity.
Qed.

Lemma locations_returns (data : DataFrame cell) :
  cleaned_record_set data -> empty data = false ->
  exists l, insights "top_locations" data = Returned l.
Proof.
  intros (_ & _ & _ & _ & (locations & Hl & _) & _) He.
  unfold generate_insights. rewrite He.
  change ("top_locations" =? "sentiment") with false.
  change ("top_locations" =? "engagement_trend") with false.
  change ("top_locations" =? "platform_engagements") with false.
  change ("top_locations" =? "media_type_mix") with false.
  change ("top_locations" =? "top_locations") with true.
  cbv iota. rewrite Hl. cbn [bind].
  destruct (firstn 5 (value_counts sort_values_desc locations));
    eexists; reflexivity.
Qed.

(** On a Cleaned Record Set [generate_insights] returns its statements,
    whatever category it is asked for: none of its branches raises. *)
Theorem insights_return_on_cleaned (chart_type : string)
  (data : DataFrame cell) :
  cleaned_record_set data ->
  exists statements, insights chart_type data = Returned statements.
Proof.
  intro Hc. destruct (empty data) eqn:He.
  { unfold generate_insights. rewrite He. eexists. reflexivity. }
  destruct (chart_type =? "sentiment") eqn:E1.
  { apply String.eqb_eq in E1. subst. now apply sentiment_returns. }
  destruct (chart_type =? "engagement_trend") eqn:E2.
  { apply String.eqb_eq in E2. subst.
    destruct (engagement_trend_run sort_values_desc data Hc He)
      as (? & ? & ? & ? & ? & ? & _ & _ & _ & _ & _ & H).
    eexists. exact H. }
  destruct (chart_type =? "platform_engagements") eqn:E3.
  { apply String.eqb_eq in E3. subst. now apply platform_returns. }
  destruct (chart_type =? "media_type_mix") eqn:E4.
  { apply String.eqb_eq in E4. subst. now apply media_type_returns. }
  destruct (chart_type =? "top_locations") eqn:E5.
  { apply String.eqb_eq in E5. subst. now apply locations_returns. }
  unfold generate_insights. rewrite He, E1, E2, E3, E4, E5.
  eexists. reflexivity.
Qed.

Lemma and_then_done {A B : Type} (m : render A) (k : A -> render B)
  (a : A) (b : B) :
  snd m = Returned a -> snd (k a) = Returned b ->
  snd (and_then m k) = Returned b.
Proof.
  intros Hm Hk. unfold and_then. rewrite Hm. exact Hk.
Qed.

Lemma show_insights_done (chart_type : string) (data : DataFrame cell)
  (l : list string) :
  insights chart_type data = Returned l ->
  snd (show_insights sort_values_desc chart_type data) = Returned tt.
Proof.
  intro H. unfold show_insights.
  apply (and_then_done _ _ l); [exact H | reflexivity].
Qed.

(** On a Cleaned Record Set the five chart sections run to their end. *)
Lemma charts_done (data : DataFrame cell) :
  cleaned_record_set data -> empty data = false ->
  snd (charts sort_values_desc data) = Returned tt.
Proof.
  intros Hc He.
  destruct (sentiment_returns data Hc He) as (l1 & H1).
  destruct (engagement_trend_run sort_values_desc data Hc He)
    as (? & ? & ? & ? & ? & ? & _ & _ & _ & _ & _ & H2).
  destruct (platform_returns data Hc He) as (l3 & H3).
  destruct (media_type_returns data Hc He) as (l4 & H4).
  destruct (locations_returns data Hc He) as (l5 & H5).
  destruct Hc as ((ds & Hds & _) & (es & Hes & _) & (ps & Hps & _)
                  & (ss & Hss & _) & (ls & Hls & _) & (ms & Hms & _)).
  unfold charts.
  repeat first
    [ eapply and_then_done; [reflexivity|]
    | eapply and_then_done; [eapply show_insights_done; eassumption|]
    | eapply and_then_done;
      [unfold lift, sentiment_counts, daily_engagements,
         platform_engagements, media_type_counts, top_locations;
       rewrite ?Hds, ?Hes, ?Hps, ?Hss, ?Hls, ?Hms; reflexivity|] ].
  reflexivity.
Qed.

End ReturnProperties.

(** ** The page script behind the decorator *)

Section CacheProperties.

Variable to_datetime : list raw_cell -> list (option Timestamp).
Variable parse_number : string -> option Q.
Variable read_csv : string -> string + DataFrame raw_cell.
Variable sort_values_desc : list (string * Q) -> list (string * Q).

Local Notation "'cleaner'" := (cached_clean_data to_datetime parse_number).
Local Notation "'script'" := (run read_csv cleaner sort_values_desc).
Local Notation "'scripts'" := (reruns read_csv cleaner sort_values_desc).

Lemma upload_cleaned (st : session) (c c' : cache) (f : UploadedFile)
  (df : DataFrame raw_cell) (out : DataFrame cell) (msg : string) :
  read_csv (getvalue f) = inr df -> empty df = false ->
  cleaner c df = (Returned (out, msg), c') ->
  handle_upload read_csv cleaner st c (Some f)
  = if msg =? "" then
      (mkSession out (name f), c', (success_part (name f) out, Returned tt))
    else (mkSession empty_frame (name f), c', ([st_error msg], Returned tt)).
Proof.
  intros Hread Hne Hclean. unfold handle_upload.
  rewrite Hread, Hne. cbn [negb]. rewrite Hclean.
  destruct (msg =? ""); reflexivity.
Qed.

Lemma filled_cache_kept (st : session) (result : DataFrame cell * string)
  (uploaded_file : option UploadedFile) :
  snd (fst (script st (Some result) uploaded_file)) = Some result.
Proof.
  rewrite run_unfold. unfold handle_upload.
  destruct uploaded_file as [f|].
  - destruct (read_csv (getvalue f)) as [e|df].
    + reflexivity.
    + destruct (empty df); [reflexivity|]. destruct result as [out msg].
      cbn [negb cached_clean_data]. destruct (msg =? ""); reflexivity.
  - destruct (file_name st =? ""); reflexivity.
Qed.

Lemma reruns_cache_kept (uploads : list (option UploadedFile)) (st : session)
  (result : DataFrame cell * string) :
  snd (scripts st (Some result) uploads) = Some result.
Proof.
  revert st. induction uploads as [|u uploads IH]; intro st; [reflexivity|].
  simpl. pose proof (filled_cache_kept st result u) as Hk.
  destruct (script st (Some result) u) as [[st1 c1] page].
  simpl in Hk. subst c1. apply IH.
Qed.

(** Once a cleaning has returned, its result answers every later upload:
    whatever table a later file holds, the session receives the first
    file's cleaned frame under the later file's name, or the first file's
    message is shown again. *)
Theorem cached_result_is_reused (st : session) (f1 f2 : UploadedFile)
  (df1 df2 : DataFrame raw_cell) (result : DataFrame cell * string)
  (later : list (option UploadedFile)) :
  read_csv (getvalue f1) = inr df1 -> empty df1 = false ->
  clean_data to_datetime parse_number df1 = Returned result ->
  read_csv (getvalue f2) = inr df2 -> empty df2 = false ->
  let '(st1, c1) := scripts st None (Some f1 :: later) in
  let '(st2, c2, page) := script st1 c1 (Some f2) in
  c2 = Some result
  /\ file_name st2 = name f2
  /\ if snd result =? "" then
       cleaned_data st2 = fst result
       /\ In (st_info ("Successfully processed **"
                       ++ digits (N.of_nat (List.length (index (fst result))))
                       ++ "** valid rows.")) (fst page)
     else cleaned_data st2 = empty_frame
          /\ In (st_error (snd result)) (fst page).
Proof.
  intros Hread1 Hne1 Hclean Hread2 Hne2.
  assert (Hc1 : snd (scripts st None (Some f1 :: later)) = Some result).
  { cbn [reruns]. rewrite run_unfold.
    assert (Hfirst : cleaner None df1 = (Returned result, Some result))
      by (unfold cached_clean_data; now rewrite Hclean).
    destruct result as [out msg].
    rewrite (upload_cleaned st None (Some (out, msg)) f1 df1 out msg
               Hread1 Hne1 Hfirst).
    destruct (msg =? ""); apply reruns_cache_kept. }
  destruct (scripts st None (Some f1 :: later)) as [st1 c1].
  simpl in Hc1. subst c1.
  rewrite run_unfold. destruct result as [out msg].
  rewrite (upload_cleaned st1 (Some (out, msg)) (Some (out, msg)) f2 df2 out
             msg Hread2 Hne2 eq_refl).
  cbn [fst snd]. destruct (msg =? ""); cbn [fst snd cleaned_data file_name].
  - repeat (split; [reflexivity|]).
    destruct (empty out); cbn [fst]; apply in_or_app; right;
      apply in_or_app; left; simpl; tauto.
  - repeat (split; [reflexivity|]).
    change (empty (@empty_frame cell)) with true. cbn [fst].
    apply in_or_app; right; apply in_or_app; left; simpl; tauto.
Qed.

End CacheProperties.

Section DashboardProperties.

Variable to_datetime : list raw_cell -> list (option Timestamp).
Variable parse_number : string -> option Q.
Variable read_csv : string -> string + DataFrame raw_cell.
Variable sort_values_desc : list (string * Q) -> list (string * Q).

Hypothesis to_datetime_length :
  forall col, List.length (to_datetime col) = List.length col.
Hypothesis sort_values_perm :
  forall s, Permutation (sort_values_desc s) s.
Hypothesis sort_values_descending :
  forall s, descending (sort_values_desc s).

Local Notation "'cleaner'" := (cached_clean_data to_datetime parse_number).
Local Notation "'script'" := (run read_csv cleaner sort_values_desc).

(** The first upload of a rectangular table with one date and one
    engagements column and text in its category columns: the run completes,
    the session holds the Cleaned Record Set under the file's name, the page
    reports the file and the number of rows kept, and it shows the five
    charts, or none when no date could be parsed. *)
Theorem first_upload_draws_dashboard (st : session) (f : UploadedFile)
  (df : DataFrame raw_cell) (dcol ecol : list raw_cell) :
  read_csv (getvalue f) = inr df ->
  empty df = false ->
  (forall c, In c (columns df) -> List.length (snd c) = List.length (index df)) ->
  get_column (normalize_columns df) "date" = Returned dcol ->
  get_column (normalize_columns df) "engagements" = Returned ecol ->
  (forall label, In label category_columns ->
     exists col, get_column (normalize_columns df) label = Returned col
                 /\ text_only col) ->
  exists out shown,
    script st None (Some f)
    = (mkSession out (name f), Some (out, ""), (shown, Returned tt))
    /\ cleaned_record_set out
    /\ In (st_success ("Selected: **" ++ name f ++ "**")) shown
    /\ In (st_info ("Successfully processed **"
                    ++ digits (N.of_nat (List.length (index out)))
                    ++ "** valid rows.")) shown
    /\ chart_count shown = (if empty out then 0 else 5)%nat.
Proof.
  intros Hread Hne Hrect Hd Hg Hcat.
  destruct (clean_data_cleaned to_datetime parse_number to_datetime_length
              df dcol ecol Hne Hrect Hd Hg Hcat) as (out & Hout & Hcs).
  assert (Hfirst : cleaner None df = (Returned (out, ""), Some (out, "")))
    by (unfold cached_clean_data; now rewrite Hout).
  exists out. rewrite run_unfold.
  rewrite (upload_cleaned to_datetime parse_number read_csv st None
             (Some (out, "")) f df out "" Hread Hne Hfirst).
  change ("" =? "") with true. cbv iota. cbn [fst snd cleaned_data].
  assert (Hin : forall (e : element) tail,
             In e (success_part (name f) out) ->
             In e (List.app page_top
                     (List.app (success_part (name f) out) tail))).
  { intros e tail H. apply in_or_app; right. apply in_or_app. now left. }
  destruct (empty out) eqn:Ee.
  - eexists. split; [reflexivity|]. split; [exact Hcs|].
    split; [apply Hin; simpl; tauto|]. split; [apply Hin; simpl; tauto|].
    reflexivity.
  - rewrite (charts_done sort_values_desc sort_values_perm
               sort_values_descending out Hcs Ee).
    eexists. split; [reflexivity|]. split; [exact Hcs|].
    split; [apply Hin; simpl; tauto|]. split; [apply Hin; simpl; tauto|].
    unfold chart_count.
    rewrite filter_app, length_app.
    change (filter is_chart page_top) with (@nil element).
    change (List.app (success_part (name f) out)
              (st_markdown "---" :: fst (charts sort_values_desc out)))
      with (List.app (success_part (name f) out)
              (List.app [st_markdown "---"] (fst (charts sort_values_desc out)))).
    rewrite !filter_app, !length_app.
    change (List.length (filter is_chart (success_part (name f) out)))
      with 0%nat.
    change (List.length (filter is_chart [st_markdown "---"])) with 0%nat.
    cbn [List.length Nat.add].
    apply (charts_count sort_values_desc out tt).
    apply (charts_done sort_values_desc sort_values_perm
             sort_values_descending out Hcs Ee).
Qed.

End DashboardProperties.

(** ** Instances of the further properties on the sample tables *)

Lemma message_empty_iff_cleaned_witness :
  empty upload_two_rows = false
  /\ (forall c, In c required_columns ->
                In c (map normalize_name (labels upload_two_rows))).
Proof.
  destruct (message_empty_iff_cleaned iso_dates integer_literal
              upload_two_rows (frame_of (clean_sample upload_two_rows)) "")
    as [[H _] _].
  - reflexivity.
  - exact (H eq_refl).
Defined.

Lemma cleaning_keeps_columns_witness :
  labels (frame_of (clean_sample upload_text_engagements))
  = ["date"; "platform"; "sentiment"; "location"; "engagements"; "media_type"].
Proof.
  destruct (cleaning_keeps_columns iso_dates integer_literal
              upload_text_engagements
              (frame_of (clean_sample upload_text_engagements))
              [RStr "2024-01-01"; RStr "2024-01-02"; RStr "n/a";
               RStr "2024-01-03"]) as [_ H].
  - reflexivity.
  - reflexivity.
  - reflexivity.
  - exact H.
Defined.

Lemma cleaning_keeps_row_order_witness :
  NoDup (index (frame_of (clean_sample upload_text_engagements))).
Proof.
  destruct (cleaning_keeps_row_order iso_dates integer_literal
              upload_text_engagements
              (frame_of (clean_sample upload_text_engagements)) "")
    as [H _].
  - reflexivity.
  - apply H. vm_compute. repeat constructor; simpl; intuition discriminate.
Defined.

Lemma no_date_parses_empty_success_witness :
  exists out,
    clean_sample upload_no_valid_date = Returned (out, "")
    /\ index out = [] /\ empty out = true.
Proof.
  destruct (no_date_parses_empty_success iso_dates integer_literal
              upload_no_valid_date [RStr "yesterday"; RNaN]
              [RNum 10; RNum 20]) as (out & Hout & Hidx & _ & He).
  - reflexivity.
  - reflexivity.
  - intros c Hc. vm_compute in Hc. vm_compute. tauto.
  - reflexivity.
  - reflexivity.
  - vm_compute. repeat constructor.
  - exists out. split; [unfold clean_sample; now rewrite Hout|].
    split; [exact Hidx | exact He].
Defined.

Lemma at_most_three_statements_witness :
  (List.length
     ["Dominant sentiment: **Positive** (50.0%).";
      "Second most common sentiment: **Negative** (33.3%).";
      "Overall, 6 sentiment entries were analyzed."] <= 3)%nat.
Proof.
  apply (at_most_three_statements insertion_sort_desc "sentiment"
           cleaned_four_locations).
  reflexivity.
Defined.

Lemma missing_column_raises_witness :
  insights_sample "sentiment" cleaned_without_sentiment
  = Failed (MissingLabel "sentiment").
Proof.
  apply (missing_column_raises insertion_sort_desc "sentiment" "sentiment"
           cleaned_without_sentiment).
  - unfold first_column_read. simpl. tauto.
  - reflexivity.
  - vm_compute. intuition discriminate.
Defined.

Lemma sentiment_statements_witness :
  let seen := ["Positive"; "Negative"; "Positive"; "Neutral"; "Positive";
               "Negative"] in
  insights_sample "sentiment" cleaned_four_locations
  = Returned ["Dominant sentiment: **Positive** (50.0%).";
              "Second most common sentiment: **Negative** (33.3%).";
              "Overall, 6 sentiment entries were analyzed."]
  /\ exists top top_share,
       In top seen
       /\ top_share == share_of seen top
       /\ (forall k, In k seen -> share_of seen k <= top_share).
Proof.
  intro seen. split; [reflexivity|].
  destruct (sentiment_statements insertion_sort_desc insertion_sort_desc_perm
              insertion_sort_desc_descending cleaned_four_locations
              [Some "Positive"; Some "Negative"; Some "Positive"; None;
               Some "Neutral"; Some "Positive"; Some "Negative"]
              eq_refl eq_refl eq_refl) as [_ H].
  destruct H as (top & share & second & _ & Hin & Hshare & Hmax & _);
    [discriminate|].
  now exists top, share.
Defined.

Lemma media_type_statements_witness :
  let seen := ["Video"; "Image"; "Video"; "Text"; "Video"; "Image"; "Text"] in
  insights_sample "media_type_mix" cleaned_four_locations
  = Returned ["The most prevalent media type is **Video** (42.9%).";
              "The second most common media type is **Image** (28.6%).";
              "In total, **7** media type entries were counted."]
  /\ exists top top_share,
       In top seen
       /\ top_share == share_of seen top
       /\ (forall k, In k seen -> share_of seen k <= top_share).
Proof.
  intro seen. split; [reflexivity|].
  destruct (media_type_statements insertion_sort_desc insertion_sort_desc_perm
              insertion_sort_desc_descending cleaned_four_locations
              [Some "Video"; Some "Image"; Some "Video"; Some "Text";
               Some "Video"; Some "Image"; Some "Text"]
              eq_refl eq_refl eq_refl) as [_ H].
  destruct H as (top & share & second & _ & Hin & Hshare & Hmax & _);
    [discriminate|].
  now exists top, share.
Defined.

Lemma platform_statements_witness :
  insights_sample "platform_engagements" cleaned_two_platforms
  = Returned
      ["The platform with the highest engagement is **B** with **700** engagements.";
       "The second highest engaging platform is **A** with **300** engagements.";
       "A total of **2** unique platforms were identified."]
  /\ exists ranking,
       platform_engagements insertion_sort_desc cleaned_two_platforms
       = Returned ranking
       /\ NoDup (map fst ranking) /\ descending ranking.
Proof.
  split; [reflexivity|].
  destruct (platform_statements insertion_sort_desc insertion_sort_desc_perm
              insertion_sort_desc_descending cleaned_two_platforms
              [100; 700; 200] cleaned_two_platforms_ok eq_refl eq_refl eq_refl)
    as (ps & ranking & _ & Hr & Hnd & _ & _ & Hdesc & _).
  now exists ranking.
Defined.


Lemma trend_chart_adds_up_witness :
  exists points,
    daily_engagements cleaned_four_locations = Returned points
    /\ Qsum (map snd points) == 1059.
Proof.
  destruct (trend_chart_adds_up cleaned_four_locations
              [100; 700; 200; 0; -3; 50; 12]
              cleaned_four_locations_ok eq_refl eq_refl)
    as (ds & points & _ & Hp & _ & _ & _ & Hsum).
  exists points. split; [exact Hp|]. rewrite Hsum. reflexivity.
Defined.

Lemma pie_charts_add_up_witness :
  exists sentiment slices,
    text_column cleaned_four_locations "sentiment" = Returned sentiment
    /\ sentiment_counts insertion_sort_desc cleaned_four_locations
       = Returned slices
    /\ Qsum (map snd slices)
       == inject_Z (Z.of_nat (List.length (present sentiment))).
Proof.
  destruct (pie_charts_add_up insertion_sort_desc insertion_sort_desc_perm
              insertion_sort_desc_descending cleaned_four_locations
              cleaned_four_locations_ok)
    as (s & m & slices & slices' & Hs & _ & Hsl & _ & _ & _ & _ & _ & Hsum & _).
  now exists s, slices.
Defined.

Lemma platform_chart_adds_up_witness :
  exists bars,
    platform_engagements insertion_sort_desc cleaned_two_platforms
    = Returned bars
    /\ NoDup (map fst bars)
    /\ descending bars
    /\ Qsum (map snd bars) == 1000.
Proof.
  destruct (platform_chart_adds_up insertion_sort_desc
              insertion_sort_desc_perm insertion_sort_desc_descending
              cleaned_two_platforms [100; 700; 200]
              cleaned_two_platforms_ok eq_refl eq_refl)
    as (ps & bars & Hps & Hbars & Hnd & Hdesc & Hsum).
  exists bars. repeat split; try assumption.
  rewrite Hsum. injection Hps as <-. reflexivity.
Defined.

Lemma location_chart_matches_statements_witness :
  insights_sample "top_locations" cleaned_four_locations
  = Returned
      ["The top location for mentions is **NY** with **3** occurrences.";
       "The second top location is **LA** with **2** occurrences.";
       "The third top location is **SF** with **1** occurrences."].
Proof.
  destruct (location_chart_matches_statements insertion_sort_desc
              cleaned_four_locations
              [("NY", 3); ("LA", 2); ("SF", 1)]) as [_ H].
  - reflexivity.
  - reflexivity.
  - exact H.
Defined.

Lemma insights_return_on_cleaned_witness :
  exists statements,
    insights_sample "platform_engagements" cleaned_four_locations
    = Returned statements.
Proof.
  exact (insights_return_on_cleaned insertion_sort_desc
           insertion_sort_desc_perm insertion_sort_desc_descending
           "platform_engagements" cleaned_four_locations
           cleaned_four_locations_ok).
Defined.

Lemma error_clears_session_witness :
  let page := run_sample initial_session None (Some file_without_media_type) in
  cleaned_data (fst (fst page)) = empty_frame
  /\ chart_count (fst (snd page)) = 0%nat.
Proof.
  intro page.
  apply (error_clears_session sample_read_csv
           (cached_clean_data iso_dates integer_literal) insertion_sort_desc
           initial_session (fst (fst page)) None (snd (fst page))
           (Some file_without_media_type) (fst (snd page))).
  - vm_compute. reflexivity.
  - vm_compute. reflexivity.
Defined.

Lemma five_charts_or_prompt_witness :
  chart_count
    (fst (snd (run_sample initial_session None (Some file_text_engagements))))
  = 5%nat.
Proof.
  pose (page := run_sample initial_session None (Some file_text_engagements)).
  pose proof (five_charts_or_prompt sample_read_csv
                (cached_clean_data iso_dates integer_literal)
                insertion_sort_desc initial_session (fst (fst page)) None
                (snd (fst page)) (Some file_text_engagements)
                (fst (snd page))) as H.
  change (empty (cleaned_data (fst (fst page)))) with false in H.
  apply H. vm_compute. reflexivity.
Defined.

Lemma no_upload_shows_prompt_witness :
  let '(st, k) :=
    reruns_sample initial_session None
      [Some file_two_rows; Some file_without_media_type] in
  run_sample st k None
  = (initial_session, k,
     (List.app page_top [st_markdown "---"; prompt], Returned tt)).
Proof.
  apply (no_upload_shows_prompt sample_read_csv
           (cached_clean_data iso_dates integer_literal) insertion_sort_desc
           None [Some file_two_rows; Some file_without_media_type]).
  repeat constructor; discriminate.
Defined.

Lemma cached_result_is_reused_witness :
  let page :=
    run_sample
      (fst (reruns_sample initial_session None [Some file_two_rows]))
      (snd (reruns_sample initial_session None [Some file_two_rows]))
      (Some file_without_media_type) in
  file_name (fst (fst page)) = "short.csv"
  /\ cleaned_data (fst (fst page)) = frame_of (clean_sample upload_two_rows)
  /\ In (st_info "Successfully processed **1** valid rows.") (fst (snd page)).
Proof.
  pose proof (cached_result_is_reused iso_dates integer_literal
                sample_read_csv insertion_sort_desc initial_session
                file_two_rows file_without_media_type upload_two_rows
                upload_without_media_type
                (frame_of (clean_sample upload_two_rows), "") []
                eq_refl eq_refl eq_refl eq_refl eq_refl) as H.
  fold run_sample reruns_sample in H.
  destruct (reruns_sample initial_session None [Some file_two_rows])
    as [st1 c1].
  cbn [fst snd].
  destruct (run_sample st1 c1 (Some file_without_media_type))
    as [[st2 c2] page].
  destruct H as (_ & Hname & Hdata & Hinfo).
  cbn [fst snd]. split; [exact Hname|]. split; [exact Hdata | exact Hinfo].
Defined.

Lemma first_upload_draws_dashboard_witness :
  exists out shown,
    run_sample initial_session None (Some file_text_engagements)
    = (mkSession out "text.csv", Some (out, ""), (shown, Returned tt))
    /\ cleaned_record_set out
    /\ chart_count shown = (if empty out then 0 else 5)%nat.
Proof.
  destruct (first_upload_draws_dashboard iso_dates integer_literal
              sample_read_csv insertion_sort_desc
              (fun col => length_map _ col)
              insertion_sort_desc_perm insertion_sort_desc_descending
              initial_session file_text_engagements upload_text_engagements
              [RStr "2024-01-01"; RStr "2024-01-02"; RStr "n/a";
               RStr "2024-01-03"]
              [RStr "-5"; RStr "many"; RStr "7"; RNaN])
    as (out & shown & Hrun & Hcs & _ & _ & Hcount).
  - reflexivity.
  - reflexivity.
  - intros c Hc. vm_compute in Hc.
    repeat (destruct Hc as [<- | Hc]; [reflexivity|]). contradiction.
  - reflexivity.
  - reflexivity.
  - intros label Hl. unfold category_columns in Hl. simpl in Hl.
    repeat (destruct Hl as [<- | Hl];
            [eexists; split; [reflexivity | repeat constructor]|]).
    contradiction.
  - exists out, shown. split; [exact Hrun|]. split; [exact Hcs | exact Hcount].
Defined.

(** ** The claims that fail once the cache is filled, and on large sums *)

(** C3. After the two-row upload has been cleaned, the decorated
    [clean_data] answers a call on the upload with text engagements from
    its cache: the frame returned has the one row of the first upload with
    engagements 10, where the body run on the table passed returns three
    rows with engagements -5, 0 and 0. *)
Theorem engagements_served_from_cache :
  let c := snd (cached_clean_data iso_dates integer_literal None
                  upload_two_rows) in
  exists out,
    cached_clean_data iso_dates integer_literal c upload_text_engagements
    = (Returned (out, ""), c)
    /\ index out = [0%nat]
    /\ get_column out "engagements" = Returned [Num 10]
    /\ get_column
         (frame_of (clean_data iso_dates integer_literal
                      upload_text_engagements)) "engagements"
       = Returned [Num (-5); Num 0; Num 0].
Proof.
  eexists. repeat split; reflexivity.
Qed.



Lemma normalized_name_plain_witness :
  String.length (normalize_name "Media Type") = 10%nat
  /\ Forall (fun c => Ascii.eqb c " " = false /\ is_upper c = false)
            (list_ascii_of_string "media_type").
Proof.
  destruct (normalized_name_plain "Media Type" eq_refl) as [Hl Hf].
  split; [exact Hl | exact Hf].
Defined.
